(** * The species details dialog: schema validation and the edit session

    A shallow embedding of [src/app/species/species-details-dialog.tsx]:
    the zod schema [speciesSchema] (normalisation and validation of the
    form values), and the dialog component (the [isEditing] flag, the
    react-hook-form state, the handlers [onSubmit], [startEditing],
    [handleCancel], [handleDelete] and the rendered controls).

    JavaScript strings are sequences of UTF-16 code units, numbers are
    IEEE binary64 floats, [null] is [None].  An [async] handler is split
    at its [await]: the part that issues the remote request, and the
    continuation that runs on the response.  Requests in flight are the
    suspended continuations; they resume in any order.

    The fetch of the author's display name and the dialog's chrome have
    no part in the properties below and are left out. *)

From Stdlib Require Import ZArith NArith List Bool Ascii String Floats Lia.
Import ListNotations.

Set Implicit Arguments.

(** ** JavaScript strings *)

Module JsString.

Local Open Scope N_scope.

(** A string value: its UTF-16 code units. *)
Definition jsstring := list N.

(** A literal of ASCII characters. *)
Definition lit (s : string) : jsstring :=
  map N_of_ascii (list_ascii_of_string s).

Definition is_empty (s : jsstring) : bool :=
  match s with
  | [] => true
  | _ :: _ => false
  end.

Definition eqb (a b : jsstring) : bool :=
  if list_eq_dec N.eq_dec a b then true else false.

(** The integer that ASCII digits denote in radix 10. *)
Definition decimal_value (digits : jsstring) : N :=
  fold_left (fun acc c => 10 * acc + (c - 0x30)) digits 0.

(** ECMAScript WhiteSpace and LineTerminator code points: what
    [String.prototype.trim] removes and what [StringToNumber] skips. *)
Definition is_whitespace (c : N) : bool :=
  (c =? 0x9) || (c =? 0xA) || (c =? 0xB) || (c =? 0xC) || (c =? 0xD)
  || (c =? 0x20) || (c =? 0xA0) || (c =? 0x1680)
  || ((0x2000 <=? c) && (c <=? 0x200A))
  || (c =? 0x2028) || (c =? 0x2029) || (c =? 0x202F) || (c =? 0x205F)
  || (c =? 0x3000) || (c =? 0xFEFF).

Fixpoint trimStart (s : jsstring) : jsstring :=
  match s with
  | [] => []
  | c :: r => if is_whitespace c then trimStart r else s
  end.

Definition trimEnd (s : jsstring) : jsstring :=
  rev (trimStart (rev s)).

(** [String.prototype.trim]. *)
Definition trim (s : jsstring) : jsstring :=
  trimEnd (trimStart s).

Definition all_whitespace (s : jsstring) : bool :=
  forallb is_whitespace s.

(** The first and the last code unit of [s] are not white space. *)
Definition starts_solid (s : jsstring) : Prop :=
  match s with
  | [] => True
  | c :: _ => is_whitespace c = false
  end.

Definition ends_solid (s : jsstring) : Prop := starts_solid (rev s).

End JsString.

(** ** The platform

    Three parts of the JavaScript platform are used by the component and
    are not modelled in full; they are taken as parameters:
    - the URL parser on inputs whose scheme is special ([http], [https],
      [ftp], [ws], [wss], [file]), which involves IDNA and IPv4 parsing;
    - the URL parser's host state on a host written with brackets (IPv6);
    - [StringToNumber] on text that is not empty once trimmed.
    Everything else is defined below. *)

Record Runtime := mkRuntime {
  special_url_parses : JsString.jsstring -> bool;
  bracketed_host_parses : JsString.jsstring -> bool;
  numeric_literal : JsString.jsstring -> float
}.

(** ** The URL parser, as far as [new URL(input)] succeeding or throwing

    zod's [.url()] check of a string is [try { new URL(data) } catch]: the
    WHATWG basic URL parser without a base URL. *)

Module Url.

Import JsString.
Local Open Scope N_scope.

Definition is_c0_control_or_space (c : N) : bool := c <=? 0x20.

Definition is_tab_or_newline (c : N) : bool :=
  (c =? 0x9) || (c =? 0xA) || (c =? 0xD).

Fixpoint strip_leading (s : jsstring) : jsstring :=
  match s with
  | [] => []
  | c :: r => if is_c0_control_or_space c then strip_leading r else s
  end.

(** Leading and trailing C0 controls and spaces are removed, then every
    tab and newline. *)
Definition preprocess (input : jsstring) : jsstring :=
  filter (fun c => negb (is_tab_or_newline c))
         (rev (strip_leading (rev (strip_leading input)))).

Definition is_ascii_upper (c : N) : bool := (0x41 <=? c) && (c <=? 0x5A).

Definition is_ascii_alpha (c : N) : bool :=
  is_ascii_upper c || ((0x61 <=? c) && (c <=? 0x7A)).

Definition is_ascii_digit (c : N) : bool := (0x30 <=? c) && (c <=? 0x39).

Definition to_lower (c : N) : N :=
  if is_ascii_upper c then c + 0x20 else c.

(** Scheme state: the lower-cased scheme and what follows its colon;
    [None] is the no-scheme state, a failure when there is no base URL. *)
Fixpoint scheme_state (buffer s : jsstring) : option (jsstring * jsstring) :=
  match s with
  | [] => None
  | c :: r =>
      if is_ascii_alpha c || is_ascii_digit c
         || (c =? 0x2B) || (c =? 0x2D) || (c =? 0x2E)
      then scheme_state (buffer ++ [to_lower c]) r
      else if c =? 0x3A then Some (buffer, r) else None
  end.

Definition scheme_start_state (s : jsstring) : option (jsstring * jsstring) :=
  match s with
  | [] => None
  | c :: r => if is_ascii_alpha c then scheme_state [to_lower c] r else None
  end.

Definition special_schemes : list jsstring :=
  map lit ["ftp"; "file"; "http"; "https"; "ws"; "wss"]%string.

Definition is_special (scheme : jsstring) : bool :=
  existsb (eqb scheme) special_schemes.

(** Authority state of a scheme that is not special: the buffer left
    after the last [@], up to the first [/], [?] or [#]; [None] is the
    host-missing failure (credentials followed by an empty host). *)
Fixpoint authority_state (atSignSeen : bool) (buffer s : jsstring)
  : option jsstring :=
  match s with
  | [] => if atSignSeen && is_empty buffer then None else Some buffer
  | c :: r =>
      if c =? 0x40 then authority_state true [] r
      else if (c =? 0x2F) || (c =? 0x3F) || (c =? 0x23)
      then (if atSignSeen && is_empty buffer then None else Some buffer)
      else authority_state atSignSeen (buffer ++ [c]) r
  end.

Definition forbidden_host_code_point (c : N) : bool :=
  existsb (N.eqb c)
    [0x0; 0x9; 0xA; 0xD; 0x20; 0x23; 0x2F; 0x3A; 0x3C; 0x3E; 0x3F; 0x40;
     0x5B; 0x5C; 0x5D; 0x5E; 0x7C].

(** Opaque-host parser: fails on a forbidden host code point; any other
    code point is percent-encoded. *)
Definition opaque_host_parses (buffer : jsstring) : bool :=
  negb (existsb forbidden_host_code_point buffer).

(** Port state: digits only, and at most 65535. *)
Definition port_state (s : jsstring) : bool :=
  forallb is_ascii_digit s && (decimal_value s <=? 65535).

(** Host state over the authority's buffer, for a host without brackets. *)
Fixpoint host_state (buffer s : jsstring) : bool :=
  match s with
  | [] => opaque_host_parses buffer
  | c :: r =>
      if c =? 0x3A
      then negb (is_empty buffer) && opaque_host_parses buffer && port_state r
      else host_state (buffer ++ [c]) r
  end.

Definition has_bracket (s : jsstring) : bool :=
  existsb (fun c => (c =? 0x5B) || (c =? 0x5D)) s.

Section WithRuntime.

Variable rt : Runtime.

(** [new URL(input)] returns, rather than throws.  After the scheme of a
    URL that is not special: [//] enters the authority state; anything
    else is a path or an opaque path, which never fails, as the query and
    the fragment never do. *)
Definition parses (input : jsstring) : bool :=
  let s := preprocess input in
  match scheme_start_state s with
  | None => false
  | Some (scheme, rest) =>
      if is_special scheme then special_url_parses rt s
      else
        match rest with
        | 0x2F :: 0x2F :: r =>
            match authority_state false [] r with
            | None => false
            | Some hostport =>
                if has_bracket hostport then bracketed_host_parses rt hostport
                else host_state [] hostport
            end
        | _ => true
        end
  end.

End WithRuntime.

End Url.

(** A stand-in runtime for evaluating examples: it accepts every URL with
    a special scheme and every bracketed host, and reads unsigned decimal
    integers (anything else is [NaN]). *)
Module SampleRuntime.

Import JsString.

Definition decimal (s : jsstring) : float :=
  if forallb Url.is_ascii_digit s
  then PrimFloat.of_uint63 (Uint63.of_Z (Z.of_N (decimal_value s)))
  else nan.

Definition rt : Runtime :=
  {| special_url_parses := fun _ => true;
     bracketed_host_parses := fun _ => true;
     numeric_literal := decimal |}.

End SampleRuntime.

(** ** The schema: [kingdoms] and [speciesSchema] *)

(** The names of the form's fields. *)
Module Name.

Inductive t : Set :=
| scientific_name | common_name | kingdom | total_population | image
| description.

Definition eq_dec (a b : t) : {a = b} + {a <> b}.
Proof. decide equality. Defined.

Definition eqb (a b : t) : bool := if eq_dec a b then true else false.

End Name.

Module Zod.

Import JsString.

(** The form's values, before and after parsing ([FormData]); a field
    that may be [null] is an [option]. *)
Record FormData := mkFormData {
  scientific_name : jsstring;
  common_name : option jsstring;
  kingdom : jsstring;
  total_population : option float;
  image : option jsstring;
  description : option jsstring
}.

Inductive ZodIssueCode : Set :=
| invalid_type | too_small | invalid_string | invalid_enum_value.

(** What a field's schema returns: the output value, or its issues. *)
Inductive Checked (A : Type) : Type :=
| Valid (value : A)
| Invalid (codes : list ZodIssueCode).

Arguments Valid {A} value.
Arguments Invalid {A} codes.

Definition is_valid {A} (r : Checked A) : bool :=
  match r with
  | Valid _ => true
  | Invalid _ => false
  end.

(** [z.enum(["Animalia", "Plantae", "Fungi", "Protista", "Archaea",
    "Bacteria"])] *)
Definition kingdoms : list jsstring :=
  map lit ["Animalia"; "Plantae"; "Fungi"; "Protista"; "Archaea";
           "Bacteria"]%string.

Definition kingdoms_parse (value : jsstring) : Checked jsstring :=
  if existsb (eqb value) kingdoms then Valid value
  else Invalid [invalid_enum_value].

(** [z.string().trim().min(1).transform((val) => val?.trim())] *)
Definition scientific_name_schema (data : jsstring) : Checked jsstring :=
  let data := trim data in
  if (1 <=? List.length data)%nat then Valid (trim data)
  else Invalid [too_small].

(** [(val) => (!val || val.trim() === "" ? null : val.trim())] *)
Definition null_if_blank (val : option jsstring) : option jsstring :=
  match val with
  | None => None
  | Some s =>
      if is_empty s || is_empty (trim s) then None else Some (trim s)
  end.

(** [z.string().nullable().transform(...)], for [common_name] and
    [description]: no check, only the transform. *)
Definition nullable_text_schema (data : option jsstring)
  : Checked (option jsstring) :=
  Valid (null_if_blank data).

(** [Number.isInteger]: a finite number without a fractional part. *)
Definition isInteger (x : float) : bool :=
  match Prim2SF x with
  | S754_zero _ => true
  | S754_finite _ m e => ((0 <=? e) || (Z.pos m mod 2 ^ (- e) =? 0))%Z
  | S754_infinity _ | S754_nan => false
  end.

(** [z.number().int().positive().min(1)]: [NaN] is not a number to zod and
    aborts; the three checks all run and each adds its issue. *)
Definition number_schema (data : float) : Checked float :=
  if PrimFloat.is_nan data then Invalid [invalid_type]
  else
    let issues :=
      (if isInteger data then [] else [invalid_type])
      ++ (if PrimFloat.leb data 0 then [too_small] else [])
      ++ (if PrimFloat.ltb data 1 then [too_small] else []) in
    match issues with
    | [] => Valid data
    | _ :: _ => Invalid issues
    end.

(** [z.number().int().positive().min(1).nullable()] *)
Definition total_population_schema (data : option float)
  : Checked (option float) :=
  match data with
  | None => Valid None
  | Some x =>
      match number_schema x with
      | Valid v => Valid (Some v)
      | Invalid codes => Invalid codes
      end
  end.

Definition FieldErrors := list (Name.t * ZodIssueCode).

Definition lookup (f : Name.t) (errors : FieldErrors) : option ZodIssueCode :=
  match find (fun e => Name.eqb (fst e) f) errors with
  | Some e => Some (snd e)
  | None => None
  end.

(** zodResolver's [parseErrorSchema]: the first issue of each path. *)
Definition parseErrorSchema (issues : list (Name.t * ZodIssueCode))
  : FieldErrors :=
  fold_left
    (fun errors i =>
       match lookup (fst i) errors with
       | Some _ => errors
       | None => errors ++ [i]
       end)
    issues [].

Inductive SafeParseReturn : Type :=
| Success (data : FormData)
| Failure (issues : list (Name.t * ZodIssueCode)).

Definition issues_at {A} (path : Name.t) (r : Checked A)
  : list (Name.t * ZodIssueCode) :=
  match r with
  | Valid _ => []
  | Invalid codes => map (pair path) codes
  end.

Section WithRuntime.

Variable rt : Runtime.

(** [z.string().url().nullable().transform(...)]: the transform runs on
    what the inner schema accepted, so the URL check sees the string as
    typed, before it is trimmed. *)
Definition image_schema (data : option jsstring)
  : Checked (option jsstring) :=
  match data with
  | None => Valid (null_if_blank None)
  | Some s =>
      if Url.parses rt s then Valid (null_if_blank (Some s))
      else Invalid [invalid_string]
  end.

(** The issues of all the fields, in the order of the schema's keys. *)
Definition all_issues (input : FormData) : list (Name.t * ZodIssueCode) :=
  issues_at Name.scientific_name
    (scientific_name_schema (scientific_name input))
  ++ issues_at Name.common_name (nullable_text_schema (common_name input))
  ++ issues_at Name.kingdom (kingdoms_parse (kingdom input))
  ++ issues_at Name.total_population
       (total_population_schema (total_population input))
  ++ issues_at Name.image (image_schema (image input))
  ++ issues_at Name.description (nullable_text_schema (description input)).

(** [speciesSchema.safeParse]: every field is parsed; the data is
    returned when all are valid, the collected issues otherwise. *)
Definition speciesSchema (input : FormData) : SafeParseReturn :=
  match scientific_name_schema (scientific_name input),
        nullable_text_schema (common_name input),
        kingdoms_parse (kingdom input),
        total_population_schema (total_population input),
        image_schema (image input),
        nullable_text_schema (description input) with
  | Valid v1, Valid v2, Valid v3, Valid v4, Valid v5, Valid v6 =>
      Success (mkFormData v1 v2 v3 v4 v5 v6)
  | _, _, _, _, _, _ => Failure (all_issues input)
  end.

(** Whether the schema of one field rejects the field's value. *)
Definition field_fails (f : Name.t) (input : FormData) : bool :=
  match f with
  | Name.scientific_name =>
      negb (is_valid (scientific_name_schema (scientific_name input)))
  | Name.common_name =>
      negb (is_valid (nullable_text_schema (common_name input)))
  | Name.kingdom => negb (is_valid (kingdoms_parse (kingdom input)))
  | Name.total_population =>
      negb (is_valid (total_population_schema (total_population input)))
  | Name.image => negb (is_valid (image_schema (image input)))
  | Name.description =>
      negb (is_valid (nullable_text_schema (description input)))
  end.

End WithRuntime.

End Zod.

(** ** The component: [SpeciesDetailsDialog] *)

(** A row of the [species] table. *)
Module Species.

Record t := mk {
  id : Z;
  scientific_name : JsString.jsstring;
  common_name : option JsString.jsstring;
  kingdom : JsString.jsstring;
  total_population : option float;
  image : option JsString.jsstring;
  description : option JsString.jsstring;
  author : JsString.jsstring
}.

End Species.

Module Dialog.

Import JsString Zod.

Record Props := mkProps {
  species : Species.t;
  currentUser : jsstring
}.

(** The error descriptor of a remote call that failed. *)
Record PostgrestError := mkError { message : jsstring }.

(** What react-hook-form holds: the current values (the draft), the
    default values that [reset] replaces, and the errors by field. *)
Record FormState := mkForm {
  values : FormData;
  formDefaults : FormData;
  errors : FieldErrors
}.

(** A handler suspended at its [await]. *)
Inductive Pending : Type :=
| AwaitUpdate (input : FormData)
| AwaitDelete.

Record State := mkState {
  isEditing : bool;
  form : FormState;
  pending : list Pending
}.

Inductive Variant : Set := plain | destructive.

(** What a handler does to the world outside the component. *)
Inductive Effect : Type :=
| SupabaseUpdate (id : Z) (input : FormData)
| SupabaseDelete (id : Z)
| Toast (title : string) (description : jsstring) (variant : Variant)
| Alert (text : string)
| RouterRefresh
| RouterPush (id : Z).

Definition defaultValues (s : Species.t) : FormData :=
  {| scientific_name := Species.scientific_name s;
     common_name := Species.common_name s;
     kingdom := Species.kingdom s;
     total_population := Species.total_population s;
     image := Species.image s;
     description := Species.description s |}.

(** [useForm({ resolver, defaultValues, mode: "onChange" })] *)
Definition useForm (s : Species.t) : FormState :=
  mkForm (defaultValues s) (defaultValues s) [].

(** [form.reset(v)]: values and default values become [v], errors go. *)
Definition reset (v : FormData) : FormState := mkForm v v [].

Definition initial (p : Props) : State :=
  mkState false (useForm (species p)) [].

Definition suspend (k : Pending) (st : State) : State :=
  mkState (isEditing st) (form st) (pending st ++ [k]).

Definition is_author (p : Props) : bool :=
  eqb (Species.author (species p)) (currentUser p).

(** *** Handlers *)

(** [onSubmit], up to its [await]: the update is sent. *)
Definition onSubmit_request (p : Props) (input : FormData) (st : State)
  : State * list Effect :=
  (suspend (AwaitUpdate input) st,
   [SupabaseUpdate (Species.id (species p)) input]).

(** [onSubmit], from the response on. *)
Definition onSubmit_response (input : FormData)
  (error : option PostgrestError) (st : State) : State * list Effect :=
  match error with
  | Some e =>
      (st, [Toast "Something went wrong." (message e) destructive])
  | None =>
      (mkState false (reset input) (pending st),
       [RouterRefresh;
        Toast "Changes saved!"
          (lit "Saved your changes to " ++ scientific_name input ++ lit ".")
          plain])
  end.

Definition startEditing (st : State) : State :=
  mkState true (form st) (pending st).

(** [confirmed] is the answer to [window.confirm]. *)
Definition handleCancel (p : Props) (confirmed : bool) (st : State) : State :=
  if negb confirmed then st
  else mkState false (reset (defaultValues (species p))) (pending st).

(** [handleDelete], up to its [await]. *)
Definition handleDelete_request (p : Props) (confirmed : bool) (st : State)
  : State * list Effect :=
  if confirmed
  then (suspend AwaitDelete st, [SupabaseDelete (Species.id (species p))])
  else (st, []).

(** [handleDelete], from the response on: the [if (error)] block only
    alerts, and what follows it runs in both cases. *)
Definition handleDelete_response (p : Props)
  (error : option PostgrestError) (st : State) : State * list Effect :=
  (mkState false (form st) (pending st),
   (match error with
    | Some _ => [Alert "An error occurred while deleting the species."]
    | None => []
    end)
   ++ [RouterRefresh;
       Toast "Species deleted successfully."
         (lit "The species" ++ Species.scientific_name (species p)
          ++ lit "has been deleted.")
         plain]).

(** [navigateToDetails] *)
Definition navigateToDetails (p : Props) : list Effect :=
  [RouterPush (Species.id (species p))].

Section WithRuntime.

Variable rt : Runtime.

(** [form.handleSubmit(onSubmit)]: the resolver parses the values; with
    errors they are stored and [onSubmit] is not called, without errors
    [onSubmit] gets the parsed values. *)
Definition handleSubmit (p : Props) (st : State) : State * list Effect :=
  let f := form st in
  match speciesSchema rt (values f) with
  | Failure issues =>
      (mkState (isEditing st)
         (mkForm (values f) (formDefaults f) (parseErrorSchema issues))
         (pending st),
       [])
  | Success input =>
      onSubmit_request p input
        (mkState (isEditing st) (mkForm (values f) (formDefaults f) [])
           (pending st))
  end.

(** Unary plus on a string: [StringToNumber]; blank text is [0]. *)
Definition to_number (text : jsstring) : float :=
  let t := trim text in
  if is_empty t then 0%float else numeric_literal rt t.

(** [mode: "onChange"]: after a change the resolver runs and the error of
    the changed field is replaced by its first issue, if it has one. *)
Definition change (f : Name.t) (v : FormData) (st : State) : State :=
  let kept :=
    filter (fun e => negb (Name.eqb (fst e) f)) (errors (form st)) in
  let fresh :=
    match speciesSchema rt v with
    | Success _ => []
    | Failure issues =>
        match lookup f (parseErrorSchema issues) with
        | Some c => [(f, c)]
        | None => []
        end
    end in
  mkState (isEditing st) (mkForm v (formDefaults (form st)) (kept ++ fresh))
    (pending st).

(** [field.onChange] of the text inputs and the text area. *)
Definition onTextChange (f : Name.t) (text : jsstring) (st : State)
  : option State :=
  let v := values (form st) in
  match f with
  | Name.scientific_name =>
      Some (change f
              (mkFormData text (common_name v) (kingdom v)
                 (total_population v) (image v) (description v)) st)
  | Name.common_name =>
      Some (change f
              (mkFormData (scientific_name v) (Some text) (kingdom v)
                 (total_population v) (image v) (description v)) st)
  | Name.image =>
      Some (change f
              (mkFormData (scientific_name v) (common_name v) (kingdom v)
                 (total_population v) (Some text) (description v)) st)
  | Name.description =>
      Some (change f
              (mkFormData (scientific_name v) (common_name v) (kingdom v)
                 (total_population v) (image v) (Some text)) st)
  | Name.kingdom | Name.total_population => None
  end.

(** [onChange={(event) => field.onChange(+event.target.value)}] *)
Definition onPopulationChange (text : jsstring) (st : State) : State :=
  let v := values (form st) in
  change Name.total_population
    (mkFormData (scientific_name v) (common_name v) (kingdom v)
       (Some (to_number text)) (image v) (description v)) st.

(** [onValueChange={(value) => field.onChange(kingdoms.parse(value))}];
    [kingdoms.parse] throws on a value outside the enum. *)
Definition onValueChange (value : jsstring) (st : State) : option State :=
  let v := values (form st) in
  match kingdoms_parse value with
  | Valid k =>
      Some (change Name.kingdom
              (mkFormData (scientific_name v) (common_name v) k
                 (total_population v) (image v) (description v)) st)
  | Invalid _ => None
  end.

End WithRuntime.

(** *** What is rendered *)

Inductive Button : Set :=
| Confirm | Cancel | EditSpecies | DeleteSpecies | ViewFullDetails.

Definition Button_eqb (a b : Button) : bool :=
  match a, b with
  | Confirm, Confirm | Cancel, Cancel | EditSpecies, EditSpecies
  | DeleteSpecies, DeleteSpecies | ViewFullDetails, ViewFullDetails => true
  | _, _ => false
  end.

(** The buttons of the form: the edit block is rendered for the author
    only, and which pair it shows depends on [isEditing] alone. *)
Definition buttons (p : Props) (st : State) : list Button :=
  (if is_author p
   then if isEditing st then [Confirm; Cancel]
        else [EditSpecies; DeleteSpecies]
   else [])
  ++ [ViewFullDetails].

(** The control of a field, with the props the component passes. *)
Inductive Control : Type :=
| Input (readOnly : bool) (value : jsstring)
| NumberInput (readOnly : bool) (value : option float)
| Textarea (readOnly : bool) (value : jsstring)
| Select (value : jsstring) (options : list jsstring).

(** [value ?? ""] *)
Definition or_empty (value : option jsstring) : jsstring :=
  match value with
  | Some s => s
  | None => []
  end.

Definition control (st : State) (f : Name.t) : Control :=
  let v := values (form st) in
  match f with
  | Name.scientific_name => Input (negb (isEditing st)) (scientific_name v)
  | Name.common_name => Input (negb (isEditing st)) (or_empty (common_name v))
  | Name.kingdom => Select (kingdom v) kingdoms
  | Name.total_population =>
      NumberInput (negb (isEditing st)) (total_population v)
  | Name.image => Input (negb (isEditing st)) (or_empty (image v))
  | Name.description =>
      Textarea (negb (isEditing st)) (or_empty (description v))
  end.

(** Whether the user is kept from changing the control's value: the
    [readOnly] prop where one is passed; the [Select] gets none. *)
Definition rendered_readOnly (c : Control) : bool :=
  match c with
  | Input ro _ | NumberInput ro _ | Textarea ro _ => ro
  | Select _ _ => false
  end.

(** *** Events *)

Inductive Event : Type :=
| Click (b : Button) (confirmed : bool)
| ChangeText (f : Name.t) (text : jsstring)
| ChangePopulation (text : jsstring)
| ChangeKingdom (value : jsstring)
| Response (n : nat) (error : option PostgrestError).

Fixpoint remove_at {A} (n : nat) (l : list A) : list A :=
  match l, n with
  | [], _ => []
  | _ :: r, O => r
  | a :: r, S m => a :: remove_at m r
  end.

Definition resume (n : nat) (st : State) : State :=
  mkState (isEditing st) (form st) (remove_at n (pending st)).

Section Steps.

Variable rt : Runtime.
Variable p : Props.

(** One event: [None] when the page does not offer it (the button is not
    rendered, the input is read-only, no such request is in flight).
    [confirmed] is read by the handlers that ask [window.confirm].  A
    click runs the button's handler.  Confirm has [type="submit"] and
    submits the form.  Cancel, Edit Species and Delete Species have
    [type="button"] and run their [onClick].  View Full Details has no
    [type] and stands inside the form, so it is a submit button too: its
    [onClick] runs, then the form is submitted. *)
Definition step (st : State) (ev : Event) : option (State * list Effect) :=
  match ev with
  | Click b confirmed =>
      if existsb (Button_eqb b) (buttons p st) then
        match b with
        | Confirm => Some (handleSubmit rt p st)
        | Cancel => Some (handleCancel p confirmed st, [])
        | EditSpecies => Some (startEditing st, [])
        | DeleteSpecies => Some (handleDelete_request p confirmed st)
        | ViewFullDetails =>
            let submitted := handleSubmit rt p st in
            Some (fst submitted, navigateToDetails p ++ snd submitted)
        end
      else None
  | ChangeText f text =>
      if rendered_readOnly (control st f) then None
      else
        match onTextChange rt f text st with
        | Some st' => Some (st', [])
        | None => None
        end
  | ChangePopulation text =>
      if rendered_readOnly (control st Name.total_population) then None
      else Some (onPopulationChange rt text st, [])
  | ChangeKingdom value =>
      if rendered_readOnly (control st Name.kingdom) then None
      else
        match onValueChange rt value st with
        | Some st' => Some (st', [])
        | None => None
        end
  | Response n error =>
      match nth_error (pending st) n with
      | Some (AwaitUpdate input) =>
          Some (onSubmit_response input error (resume n st))
      | Some AwaitDelete =>
          Some (handleDelete_response p error (resume n st))
      | None => None
      end
  end.

Fixpoint run (st : State) (evs : list Event)
  : option (State * list Effect) :=
  match evs with
  | [] => Some (st, [])
  | ev :: rest =>
      match step st ev with
      | None => None
      | Some (st1, out1) =>
          match run st1 rest with
          | None => None
          | Some (st2, out2) => Some (st2, out1 ++ out2)
          end
      end
  end.

End Steps.

(** Where a [null] population can come from: a form value, a default
    value or a payload in flight is [null] only if the row's is. *)
Definition seeded (p : Props) (v : FormData) : Prop :=
  total_population v = None ->
  Species.total_population (species p) = None.

Definition population_seeded (p : Props) (st : State) : Prop :=
  seeded p (values (form st))
  /\ seeded p (formDefaults (form st))
  /\ Forall
       (fun k =>
          match k with
          | AwaitUpdate input => seeded p input
          | AwaitDelete => True
          end)
       (pending st).

End Dialog.

(** ** Sample data, for evaluating examples *)

Module Sample.

Import JsString Zod Dialog.

Definition rt : Runtime := SampleRuntime.rt.

Definition lion : Species.t :=
  Species.mk 7 (lit " Panthera leo ") None (lit "Animalia")
    (Some 20000%float) None None (lit "u1").

(** The author looks at the record; so does somebody else. *)
Definition props : Props := mkProps lion (lit "u1").

Definition visitor : Props := mkProps lion (lit "u2").

Definition network_error : PostgrestError := mkError (lit "network error").

(** A row without a population count. *)
Definition moss : Species.t :=
  Species.mk 8 (lit "Bryum argenteum") (Some (lit "silver moss"))
    (lit "Plantae") None None None (lit "u1").

Definition moss_props : Props := mkProps moss (lit "u1").

(** The author has pressed Edit Species; then Confirm, once. *)
Definition editing : State := startEditing (initial props).

Definition submitting : State := fst (handleSubmit rt props editing).

(** The lion's form values as the schema returns them. *)
Definition payload : FormData :=
  mkFormData (lit "Panthera leo") None (lit "Animalia") (Some 20000%float)
    None None.

(** While editing, the population has been set to -5. *)
Definition negative_draft : State :=
  mkState true
    (mkForm
       (mkFormData (lit " Panthera leo ") None (lit "Animalia")
          (Some (-5)%float) None None)
       (defaultValues lion) [])
    [].

End Sample.

(** ** What a parsed payload looks like, and where the kingdom stays *)

Module Payload.

Import JsString Zod Dialog.

(** A nullable text of a payload: [null], or a string that is not empty
    and that [trim] leaves alone. *)
Definition normalized_text (v : option jsstring) : Prop :=
  match v with
  | None => True
  | Some s => s <> [] /\ trim s = s
  end.

(** A positive whole number. *)
Definition positive_integer (x : float) : Prop :=
  PrimFloat.is_nan x = false /\ isInteger x = true
  /\ PrimFloat.leb x 0 = false /\ PrimFloat.ltb x 1 = false.

Definition well_formed (input : FormData) : Prop :=
  scientific_name input <> []
  /\ trim (scientific_name input) = scientific_name input
  /\ normalized_text (common_name input)
  /\ In (kingdom input) kingdoms
  /\ match total_population input with
     | None => True
     | Some x => positive_integer x
     end
  /\ normalized_text (image input)
  /\ normalized_text (description input).

Definition in_enum (k : jsstring) : Prop :=
  existsb (eqb k) kingdoms = true.

(** The kingdom of the form, and of every payload in flight, is one of
    the enum. *)
Definition kingdom_in_enum (st : State) : Prop :=
  in_enum (kingdom (values (form st)))
  /\ Forall
       (fun k =>
          match k with
          | AwaitUpdate input => in_enum (kingdom input)
          | AwaitDelete => True
          end)
       (pending st).

End Payload.

(** ** The author's display name: the [useEffect] of the dialog *)

Module AuthorName.

Import JsString.

(** [authorDisplayName], and the fetches that have not answered yet. *)
Record State := mkState {
  authorDisplayName : option jsstring;
  inFlight : nat
}.

Inductive Effect : Type :=
| SelectProfile (author : jsstring)
| Toast (title : string) (description : jsstring)
    (variant : Dialog.Variant)
| ConsoleError.

(** What the awaited query gives: [data] (its [display_name], if any), an
    [error], or an exception. *)
Inductive Outcome : Type :=
| Data (display_name : option jsstring)
| Error (text : jsstring)
| Thrown.

(** Truthiness of a string that may be undefined. *)
Definition truthy (v : option jsstring) : bool :=
  match v with
  | Some (_ :: _) => true
  | Some [] | None => false
  end.

Definition same (a b : option jsstring) : bool :=
  match a, b with
  | None, None => true
  | Some x, Some y => eqb x y
  | _, _ => false
  end.

(** The effect's body: [if (!authorDisplayName) void
    fetchAuthorDisplayName()]. *)
Definition effect (author : jsstring) (st : State) : State * list Effect :=
  if truthy (authorDisplayName st) then (st, [])
  else (mkState (authorDisplayName st) (S (inFlight st)),
        [SelectProfile author]).

(** The first render: the state starts from [species.author_display_name]
    and the effect runs. *)
Definition mount (author : jsstring) (author_display_name : option jsstring)
  : State * list Effect :=
  effect author (mkState author_display_name 0).

(** [fetchAuthorDisplayName] from its [await] on.  Setting the state to
    the value it has renders nothing; a new value renders, and the effect,
    which depends on [authorDisplayName], runs again. *)
Definition response (author : jsstring) (o : Outcome) (st : State)
  : option (State * list Effect) :=
  match inFlight st with
  | O => None
  | S n =>
      match o with
      | Error text =>
          Some (mkState (authorDisplayName st) n,
                [Toast "Error fetching author's display name." text
                   Dialog.destructive])
      | Thrown => Some (mkState (authorDisplayName st) n, [ConsoleError])
      | Data name =>
          if same (authorDisplayName st) name
          then Some (mkState (authorDisplayName st) n, [])
          else Some (effect author (mkState name n))
      end
  end.

Fixpoint run (author : jsstring) (st : State) (os : list Outcome)
  : option (State * list Effect) :=
  match os with
  | [] => Some (st, [])
  | o :: rest =>
      match response author o st with
      | None => None
      | Some (st1, out1) =>
          match run author st1 rest with
          | None => None
          | Some (st2, out2) => Some (st2, out1 ++ out2)
          end
      end
  end.

(** [{authorDisplayName && <p>Species Author: ...</p>}] *)
Definition author_line (st : State) : option jsstring :=
  if truthy (authorDisplayName st)
  then match authorDisplayName st with
       | Some name => Some (lit "Species Author: " ++ name)
       | None => None
       end
  else None.

End AuthorName.

(** ** The detail page: [SpeciesDetailPage] *)

Module DetailPage.

Import JsString.

(** The values [id] can have. *)
Inductive JsValue : Type :=
| VUndefined
| VString (s : jsstring)
| VArray (l : list jsstring)
| VNumber (x : float).

Definition typeof (v : JsValue) : string :=
  match v with
  | VUndefined => "undefined"
  | VString _ => "string"
  | VArray _ => "object"
  | VNumber _ => "number"
  end.

(** An entry of [router.query]: absent, one string, or several. *)
Inductive QueryValue : Type :=
| Absent
| Single (s : jsstring)
| Repeated (l : list jsstring).

Definition query_value (q : QueryValue) : JsValue :=
  match q with
  | Absent => VUndefined
  | Single s => VString s
  | Repeated l => VArray l
  end.

Record State := mkState {
  species : option Species.t;
  loading : bool;
  inFlight : list float
}.

Inductive Effect : Type :=
| SupabaseSelect (id : float)
| ConsoleError.

Inductive Outcome : Type :=
| Row (data : Species.t)
| Error
| Thrown.

Definition initial : State := mkState None true [].

(** [fetchSpecies], up to its [await]; it runs when [id] is set or
    changes. *)
Definition fetchSpecies (id : JsValue) (st : State) : State * list Effect :=
  if negb (String.eqb (typeof id) "number") then (st, [])
  else
    match id with
    | VNumber x =>
        (mkState (species st) true (inFlight st ++ [x]), [SupabaseSelect x])
    | VUndefined | VString _ | VArray _ => (st, [])
    end.

(** [fetchSpecies], from the response on: an [error] is thrown and caught
    with what else is thrown; [finally] clears [loading]. *)
Definition fetch_response (o : Outcome) (st : State) : State * list Effect :=
  match o with
  | Row data => (mkState (Some data) false (inFlight st), [])
  | Error | Thrown => (mkState (species st) false (inFlight st),
                       [ConsoleError])
  end.

Inductive Event : Type :=
| IdIs (id : JsValue)
| Response (n : nat) (o : Outcome).

Definition step (st : State) (ev : Event) : option (State * list Effect) :=
  match ev with
  | IdIs id => Some (fetchSpecies id st)
  | Response n o =>
      match nth_error (inFlight st) n with
      | Some _ =>
          Some (fetch_response o
                  (mkState (species st) (loading st)
                     (Dialog.remove_at n (inFlight st))))
      | None => None
      end
  end.

Fixpoint run (st : State) (evs : list Event)
  : option (State * list Effect) :=
  match evs with
  | [] => Some (st, [])
  | ev :: rest =>
      match step st ev with
      | None => None
      | Some (st1, out1) =>
          match run st1 rest with
          | None => None
          | Some (st2, out2) => Some (st2, out1 ++ out2)
          end
      end
  end.

Local Unset Elimination Schemes.

(** What the page shows. *)
Inductive Node : Type :=
| Text (s : jsstring)
| Number (x : float)
| Element (tag : string) (children : list Node)
| Image (src alt : jsstring) (width height : Z).

Local Set Elimination Schemes.

(** [{value && element}] for a string that may be [null]: [null] and the
    empty string stand for themselves, and show nothing. *)
Definition and_text (value : option jsstring) (element : jsstring -> Node)
  : list Node :=
  match value with
  | None => []
  | Some [] => [Text []]
  | Some s => [element s]
  end.

(** Falsy numbers are 0, -0 and [NaN]. *)
Definition number_truthy (x : float) : bool :=
  negb (PrimFloat.is_nan x) && negb (PrimFloat.eqb x 0).

(** [{value && element}] for a number that may be [null]: a falsy number
    stands for itself, and a number child is printed. *)
Definition and_number (value : option float) (element : float -> Node)
  : list Node :=
  match value with
  | None => []
  | Some x => if number_truthy x then [element x] else [Number x]
  end.

Definition render (st : State) : Node :=
  if loading st then Element "div" [Text (lit "Loading...")]
  else
    match species st with
    | None => Element "div" [Text (lit "Species not found.")]
    | Some s =>
        Element "div"
          ([Element "h1" [Text (Species.scientific_name s)]]
           ++ and_text (Species.common_name s)
                (fun name => Element "p" [Text name])
           ++ [Element "p"
                 [Text (lit "Kingdom: "); Text (Species.kingdom s)]]
           ++ and_number (Species.total_population s)
                (fun n =>
                   Element "p" [Text (lit "Total Population: "); Number n])
           ++ and_text (Species.image s)
                (fun src => Image src (Species.scientific_name s) 500 300)
           ++ [Element "p"
                 (Text (lit "Description: ")
                  :: match Species.description s with
                     | Some d => [Text d]
                     | None => []
                     end)])
    end.

End DetailPage.

(** ** Two saves in flight *)

Module Scenario.

Import JsString Zod Dialog.

(** The author sets the population to 25000 and confirms, then to 30000
    and confirms again, before any response. *)
Definition two_saves : list Event :=
  [Click EditSpecies false;
   ChangePopulation (lit "25000"); Click Confirm false;
   ChangePopulation (lit "30000"); Click Confirm false].

Definition two_in_flight : State :=
  match run Sample.rt Sample.props (initial Sample.props) two_saves with
  | Some (st, _) => st
  | None => initial Sample.props
  end.

Definition saved (population : float) : FormData :=
  mkFormData (lit "Panthera leo") None (lit "Animalia") (Some population)
    None None.

End Scenario.

(** ** Shapes of image text *)

Module UrlShape.

Import JsString Url.
Local Open Scope N_scope.

(** What the scheme state appends to the scheme. *)
Definition scheme_code_point (c : N) : bool :=
  is_ascii_alpha c || is_ascii_digit c
  || (c =? 0x2B) || (c =? 0x2D) || (c =? 0x2E).

(** A letter followed by scheme code points. *)
Definition is_scheme (w : jsstring) : bool :=
  match w with
  | [] => false
  | a :: r => is_ascii_alpha a && forallb scheme_code_point r
  end.

(** No slash, no space and no control character. *)
Definition plain (t : jsstring) : bool :=
  forallb (fun c => (0x20 <? c) && negb (c =? 0x2F)) t.

Definition has_colon (s : jsstring) : bool := existsb (N.eqb 0x3A) s.

End UrlShape.

(** * Properties *)

(** ** Strings *)

Module JsStringFacts.

Import JsString.
Local Open Scope N_scope.

Lemma jsstring_eqb_eq (a b : jsstring) : eqb a b = true <-> a = b.
Proof.
  unfold eqb. destruct (list_eq_dec N.eq_dec a b); split; congruence.
Qed.

Lemma trimStart_split (s : jsstring) :
  exists w, s = w ++ trimStart s /\ all_whitespace w = true.
Proof.
  induction s as [|c r [w [E W]]]; simpl.
  - exists []. now split.
  - destruct (is_whitespace c) eqn:Hc.
    + exists (c :: w). simpl. rewrite Hc, W. split; [now f_equal | reflexivity].
    + exists []. now split.
Qed.

Lemma trimStart_solid (s : jsstring) : starts_solid (trimStart s).
Proof.
  induction s as [|c r IH]; simpl; [exact I|].
  destruct (is_whitespace c) eqn:Hc; [exact IH | exact Hc].
Qed.

Lemma trimStart_fixed (s : jsstring) : starts_solid s -> trimStart s = s.
Proof.
  destruct s as [|c r]; simpl; [reflexivity|].
  intros ->. reflexivity.
Qed.

Lemma trimStart_whitespace_app (w s : jsstring) :
  all_whitespace w = true -> trimStart (w ++ s) = trimStart s.
Proof.
  induction w as [|c w IH]; simpl; [reflexivity|].
  intros H. apply andb_true_iff in H as [Hc Hw].
  rewrite Hc. now apply IH.
Qed.

Lemma trimStart_nil_iff (s : jsstring) :
  trimStart s = [] <-> all_whitespace s = true.
Proof.
  induction s as [|c r IH]; simpl; [tauto|].
  destruct (is_whitespace c); simpl; [exact IH|].
  split; discriminate.
Qed.

Lemma all_whitespace_rev (s : jsstring) :
  all_whitespace (rev s) = all_whitespace s.
Proof.
  unfold all_whitespace.
  induction s as [|c r IH]; simpl; [reflexivity|].
  rewrite forallb_app, IH. simpl. rewrite andb_true_r. apply andb_comm.
Qed.

Lemma trimEnd_split (s : jsstring) :
  exists w, s = trimEnd s ++ w /\ all_whitespace w = true.
Proof.
  unfold trimEnd.
  destruct (trimStart_split (rev s)) as [w [E W]].
  exists (rev w). split.
  - rewrite <- rev_app_distr, <- E. symmetry. apply rev_involutive.
  - now rewrite all_whitespace_rev.
Qed.

Lemma trimEnd_solid (s : jsstring) : ends_solid (trimEnd s).
Proof.
  unfold ends_solid, trimEnd. rewrite rev_involutive. apply trimStart_solid.
Qed.

Lemma trimEnd_fixed (s : jsstring) : ends_solid s -> trimEnd s = s.
Proof.
  unfold ends_solid, trimEnd. intros H.
  rewrite (trimStart_fixed _ H). apply rev_involutive.
Qed.

Lemma trimEnd_app_whitespace (s w : jsstring) :
  all_whitespace w = true -> trimEnd (s ++ w) = trimEnd s.
Proof.
  intros H. unfold trimEnd. rewrite rev_app_distr.
  rewrite trimStart_whitespace_app; [reflexivity|].
  now rewrite all_whitespace_rev.
Qed.

Lemma trimEnd_nil_iff (s : jsstring) :
  trimEnd s = [] <-> all_whitespace s = true.
Proof.
  unfold trimEnd. rewrite <- (all_whitespace_rev s), <- trimStart_nil_iff.
  split; intros H.
  - apply (f_equal (@rev N)) in H. now rewrite rev_involutive in H.
  - now rewrite H.
Qed.

(** Removing trailing white space keeps a solid start. *)
Lemma trimEnd_keeps_start (s : jsstring) :
  starts_solid s -> starts_solid (trimEnd s).
Proof.
  intros H. destruct (trimEnd_split s) as [w [E _]].
  destruct (trimEnd s) as [|c r]; [exact I|].
  rewrite E in H. exact H.
Qed.

Lemma trim_solid (s : jsstring) :
  starts_solid (trim s) /\ ends_solid (trim s).
Proof.
  unfold trim. split.
  - apply trimEnd_keeps_start, trimStart_solid.
  - apply trimEnd_solid.
Qed.

Lemma trim_fixed (s : jsstring) :
  starts_solid s -> ends_solid s -> trim s = s.
Proof.
  intros Hs He. unfold trim.
  rewrite (trimStart_fixed _ Hs). now apply trimEnd_fixed.
Qed.

Lemma trim_idempotent (s : jsstring) : trim (trim s) = trim s.
Proof.
  destruct (trim_solid s) as [Hs He]. now apply trim_fixed.
Qed.

Lemma trim_nil_iff (s : jsstring) :
  trim s = [] <-> all_whitespace s = true.
Proof.
  unfold trim. rewrite trimEnd_nil_iff.
  destruct (trimStart_split s) as [w [E W]].
  split; intros H.
  - rewrite E. unfold all_whitespace in *. rewrite forallb_app.
    now rewrite W, H.
  - rewrite E in H. unfold all_whitespace in *. rewrite forallb_app in H.
    now apply andb_true_iff in H.
Qed.

(** Content with solid ends, wrapped in white space, trims to the content. *)
Lemma trim_surrounded (w1 c w2 : jsstring) :
  all_whitespace w1 = true -> all_whitespace w2 = true ->
  starts_solid c -> ends_solid c ->
  trim (w1 ++ c ++ w2) = c.
Proof.
  intros H1 H2 Hs He. unfold trim.
  rewrite trimStart_whitespace_app by exact H1.
  destruct c as [|a r].
  - simpl. apply trimEnd_nil_iff.
    now rewrite (proj2 (trimStart_nil_iff w2) H2).
  - rewrite trimStart_fixed by exact Hs.
    rewrite trimEnd_app_whitespace by exact H2.
    now apply trimEnd_fixed.
Qed.

End JsStringFacts.

(** ** The URL parser *)

Module UrlFacts.

Import JsString JsStringFacts Url.
Local Open Scope N_scope.

Lemma In_strip_leading (c : N) (s : jsstring) :
  In c (strip_leading s) -> In c s.
Proof.
  induction s as [|a r IH]; simpl; [tauto|].
  destruct (is_c0_control_or_space a); simpl; tauto.
Qed.

Lemma In_preprocess (c : N) (s : jsstring) : In c (preprocess s) -> In c s.
Proof.
  unfold preprocess. intros H.
  apply filter_In in H as [H _].
  apply In_rev, In_strip_leading, In_rev, In_strip_leading in H.
  exact H.
Qed.

Ltac bool_hyps :=
  repeat match goal with
    | H : (_ || _) = true |- _ => apply orb_true_iff in H; destruct H
    | H : (_ && _) = true |- _ => apply andb_true_iff in H; destruct H
    | H : (_ =? _) = true |- _ => apply N.eqb_eq in H
    | H : (_ <=? _) = true |- _ => apply N.leb_le in H
    end.

Lemma alpha_not_whitespace (c : N) :
  is_ascii_alpha c = true -> is_whitespace c = false.
Proof.
  intros Ha. destruct (is_whitespace c) eqn:Hw; [exfalso|reflexivity].
  unfold is_ascii_alpha, is_ascii_upper in Ha. unfold is_whitespace in Hw.
  bool_hyps; lia.
Qed.

(** A string that parses starts, once preprocessed, with a scheme: it has
    an ASCII letter, so it is not white space only. *)
Lemma parses_not_blank (rt : Runtime) (s : jsstring) :
  parses rt s = true -> all_whitespace s = false.
Proof.
  unfold parses. intros H.
  destruct (preprocess s) as [|c r] eqn:E; simpl in H; [discriminate|].
  destruct (is_ascii_alpha c) eqn:Ha; [|discriminate].
  assert (Hin : In c s) by (apply In_preprocess; rewrite E; now left).
  destruct (all_whitespace s) eqn:W; [|reflexivity].
  unfold all_whitespace in W. rewrite forallb_forall in W.
  specialize (W c Hin). now rewrite (alpha_not_whitespace c Ha) in W.
Qed.

End UrlFacts.

Module NameFacts.

Lemma name_eqb_eq (a b : Name.t) : Name.eqb a b = true <-> a = b.
Proof. unfold Name.eqb. destruct (Name.eq_dec a b); split; congruence. Qed.

End NameFacts.

(** ** The schema *)

Module ZodFacts.

Import JsString JsStringFacts Zod.

Lemma null_if_blank_spec (s : jsstring) :
  null_if_blank (Some s)
  = if all_whitespace s then None else Some (trim s).
Proof.
  simpl. destruct (all_whitespace s) eqn:W.
  - apply trim_nil_iff in W. rewrite W. simpl. now rewrite orb_true_r.
  - destruct s as [|c r]; [discriminate|].
    destruct (trim (c :: r)) as [|a t] eqn:E; [|reflexivity].
    apply trim_nil_iff in E. congruence.
Qed.

Lemma null_if_blank_idempotent (v : option jsstring) :
  null_if_blank (null_if_blank v) = null_if_blank v.
Proof.
  destruct v as [s|]; [|reflexivity].
  rewrite null_if_blank_spec.
  destruct (all_whitespace s) eqn:W; [reflexivity|].
  rewrite null_if_blank_spec, trim_idempotent.
  destruct (all_whitespace (trim s)) eqn:W'; [|reflexivity].
  apply trim_nil_iff in W'. rewrite trim_idempotent in W'.
  apply trim_nil_iff in W'. congruence.
Qed.

Lemma scientific_name_schema_idempotent (s t : jsstring) :
  scientific_name_schema s = Valid t -> scientific_name_schema t = Valid t.
Proof.
  unfold scientific_name_schema.
  destruct (1 <=? List.length (trim s))%nat eqn:L; [|discriminate].
  intros H. injection H as <-.
  now rewrite !trim_idempotent, L.
Qed.

Lemma kingdoms_parse_idempotent (s t : jsstring) :
  kingdoms_parse s = Valid t -> kingdoms_parse t = Valid t.
Proof.
  unfold kingdoms_parse.
  destruct (existsb (eqb s) kingdoms) eqn:E; [|discriminate].
  intros H. injection H as <-. now rewrite E.
Qed.

Lemma total_population_schema_idempotent (v w : option float) :
  total_population_schema v = Valid w -> total_population_schema w = Valid w.
Proof.
  destruct v as [x|]; simpl.
  - destruct (number_schema x) as [y|codes] eqn:E; [|discriminate].
    intros H. injection H as <-.
    assert (y = x) as ->.
    { unfold number_schema in E.
      destruct (PrimFloat.is_nan x); [discriminate|].
      destruct (_ ++ _) in E; [congruence | discriminate]. }
    simpl. now rewrite E.
  - intros H. injection H as <-. reflexivity.
Qed.

(** An invalid field always carries an issue. *)
Lemma number_schema_issues (x : float) (codes : list ZodIssueCode) :
  number_schema x = Invalid codes -> codes <> [].
Proof.
  unfold number_schema.
  destruct (PrimFloat.is_nan x); [intros H; injection H as <-; discriminate|].
  destruct (_ ++ _) as [|c l]; [discriminate|].
  intros H. injection H as <-. discriminate.
Qed.

Lemma lookup_app (f : Name.t) (errors : FieldErrors)
  (i : Name.t * ZodIssueCode) :
  lookup f (errors ++ [i])
  = match lookup f errors with
    | Some c => Some c
    | None => if Name.eqb (fst i) f then Some (snd i) else None
    end.
Proof.
  unfold lookup.
  induction errors as [|e r IH]; simpl.
  - destruct (Name.eqb (fst i) f); reflexivity.
  - destruct (Name.eqb (fst e) f); [reflexivity | exact IH].
Qed.

Lemma parseErrorSchema_fold (f : Name.t)
  (issues : list (Name.t * ZodIssueCode)) (acc : FieldErrors) :
  lookup f
    (fold_left
       (fun errors i =>
          match lookup (fst i) errors with
          | Some _ => errors
          | None => errors ++ [i]
          end) issues acc) <> None
  <-> lookup f acc <> None \/ exists c, In (f, c) issues.
Proof.
  revert acc. induction issues as [|[g c] r IH]; intros acc; simpl.
  - split; [tauto | intros [H|[c []]]; exact H].
  - rewrite IH. clear IH.
    destruct (lookup g acc) as [c0|] eqn:G.
    + split; intros [H|[c' H]]; auto.
      * right. exists c'. now right.
      * destruct H as [H|H]; [|right; now exists c'].
        injection H as -> ->. left. congruence.
    + rewrite lookup_app. simpl.
      destruct (lookup f acc) as [c1|] eqn:F.
      * split; intros _; left; discriminate.
      * destruct (Name.eqb g f) eqn:E.
        -- apply NameFacts.name_eqb_eq in E. subst g.
           split; intros _; [right; exists c; now left | left; discriminate].
        -- split; intros [H|[c' H]]; try congruence.
           ++ right. exists c'. now right.
           ++ destruct H as [H|H]; [|right; now exists c'].
              injection H as -> ->.
              rewrite (proj2 (NameFacts.name_eqb_eq f f) eq_refl) in E.
              discriminate.
Qed.

(** A field has an error after [parseErrorSchema] exactly when one of the
    issues is at its path. *)
Lemma parseErrorSchema_lookup (f : Name.t)
  (issues : list (Name.t * ZodIssueCode)) :
  lookup f (parseErrorSchema issues) <> None
  <-> exists c, In (f, c) issues.
Proof.
  unfold parseErrorSchema. rewrite parseErrorSchema_fold. simpl.
  split; [intros [H|H]; [now contradiction H | exact H] | now right].
Qed.

End ZodFacts.

Module SchemaFacts.

Import JsString JsStringFacts Zod ZodFacts.

Section WithRuntime.

Variable rt : Runtime.

Lemma speciesSchema_Success_inv (d p : FormData) :
  speciesSchema rt d = Success p ->
  scientific_name_schema (scientific_name d) = Valid (scientific_name p)
  /\ common_name p = null_if_blank (common_name d)
  /\ kingdoms_parse (kingdom d) = Valid (kingdom p)
  /\ total_population_schema (total_population d)
     = Valid (total_population p)
  /\ image_schema rt (image d) = Valid (image p)
  /\ description p = null_if_blank (description d).
Proof.
  unfold speciesSchema, nullable_text_schema.
  destruct (scientific_name_schema _); [|discriminate].
  destruct (kingdoms_parse _); [|discriminate].
  destruct (total_population_schema _); [|discriminate].
  destruct (image_schema _ _); [|discriminate].
  intros H. injection H as <-. simpl. repeat split.
Qed.

Lemma speciesSchema_Success_intro (d : FormData) (v1 v3 : jsstring)
  (v4 : option float) (v5 : option jsstring) :
  scientific_name_schema (scientific_name d) = Valid v1 ->
  kingdoms_parse (kingdom d) = Valid v3 ->
  total_population_schema (total_population d) = Valid v4 ->
  image_schema rt (image d) = Valid v5 ->
  speciesSchema rt d
  = Success (mkFormData v1 (null_if_blank (common_name d)) v3 v4 v5
               (null_if_blank (description d))).
Proof.
  intros E1 E3 E4 E5. unfold speciesSchema, nullable_text_schema.
  rewrite E1, E3, E4, E5. reflexivity.
Qed.

Lemma speciesSchema_Failure_inv (d : FormData)
  (issues : list (Name.t * ZodIssueCode)) :
  speciesSchema rt d = Failure issues -> issues = all_issues rt d.
Proof.
  unfold speciesSchema, nullable_text_schema.
  destruct (scientific_name_schema _); [|congruence].
  destruct (kingdoms_parse _); [|congruence].
  destruct (total_population_schema _); [|congruence].
  destruct (image_schema _ _); [discriminate|congruence].
Qed.

(** The schema fails exactly when the schema of some field does. *)
Lemma speciesSchema_fails (d : FormData) (f : Name.t) :
  field_fails rt f d = true -> speciesSchema rt d = Failure (all_issues rt d).
Proof.
  unfold speciesSchema, nullable_text_schema.
  destruct f; simpl;
    destruct (scientific_name_schema _); try discriminate; try reflexivity;
    destruct (kingdoms_parse _); try discriminate; try reflexivity;
    destruct (total_population_schema _); try discriminate; try reflexivity;
    destruct (image_schema _ _); try discriminate; reflexivity.
Qed.

Lemma speciesSchema_passes (d : FormData) :
  (forall f, field_fails rt f d = false) ->
  exists p, speciesSchema rt d = Success p.
Proof.
  intros H.
  pose proof (H Name.scientific_name) as H1.
  pose proof (H Name.kingdom) as H3.
  pose proof (H Name.total_population) as H4.
  pose proof (H Name.image) as H5.
  simpl in H1, H3, H4, H5.
  destruct (scientific_name_schema _) as [v1|] eqn:E1; [|discriminate].
  destruct (kingdoms_parse _) as [v3|] eqn:E3; [|discriminate].
  destruct (total_population_schema _) as [v4|] eqn:E4; [|discriminate].
  destruct (image_schema _ _) as [v5|] eqn:E5; [|discriminate].
  eexists. apply speciesSchema_Success_intro; eassumption.
Qed.

Lemma In_issues_at {A} (f g : Name.t) (c : ZodIssueCode) (r : Checked A) :
  In (f, c) (issues_at g r) -> f = g /\ is_valid r = false.
Proof.
  destruct r as [v|codes]; simpl; [tauto|].
  intros H. apply in_map_iff in H as [c' [E _]].
  injection E as -> ->. now split.
Qed.

(** The schema of a field that is invalid reports a first issue. *)
Lemma field_fails_issue (d : FormData) (f : Name.t) :
  field_fails rt f d = true -> exists c, In (f, c) (all_issues rt d).
Proof.
  destruct f; simpl; intros H.
  - destruct (scientific_name_schema _) as [|codes] eqn:E; [discriminate|].
    pose proof E as E'. unfold scientific_name_schema in E'.
    destruct (1 <=? _)%nat; [discriminate|]. injection E' as <-.
    exists too_small. unfold all_issues. rewrite E, !in_app_iff.
    left. now left.
  - discriminate.
  - destruct (kingdoms_parse _) as [|codes] eqn:E; [discriminate|].
    pose proof E as E'. unfold kingdoms_parse in E'.
    destruct (existsb _ _); [discriminate|]. injection E' as <-.
    exists invalid_enum_value. unfold all_issues. rewrite E, !in_app_iff.
    do 2 right. left. now left.
  - destruct (total_population_schema _) as [|codes] eqn:E; [discriminate|].
    pose proof E as E'.
    destruct (total_population d) as [x|] eqn:T; simpl in E';
      [|discriminate].
    destruct (number_schema x) as [|codes'] eqn:N; [discriminate|].
    injection E' as <-.
    pose proof (number_schema_issues x N) as Hne.
    destruct codes' as [|c l]; [congruence|].
    exists c. unfold all_issues. rewrite T, E, !in_app_iff.
    do 3 right. left. now left.
  - destruct (image_schema _ _) as [|codes] eqn:E; [discriminate|].
    pose proof E as E'. unfold image_schema in E'.
    destruct (image d) as [s|] eqn:T; [|discriminate].
    destruct (Url.parses rt s); [discriminate|]. injection E' as <-.
    exists invalid_string. unfold all_issues. rewrite T, E, !in_app_iff.
    do 4 right. left. now left.
  - discriminate.
Qed.

Lemma issue_field_fails (d : FormData) (f : Name.t) (c : ZodIssueCode) :
  In (f, c) (all_issues rt d) -> field_fails rt f d = true.
Proof.
  unfold all_issues. rewrite !in_app_iff. intros H.
  repeat (destruct H as [H|H]);
    apply In_issues_at in H as [-> H]; simpl in *;
    first [discriminate | now rewrite H].
Qed.

(** After a failed parse the fields with an error are the failing ones. *)
Lemma errors_at_failing_fields (d : FormData) (f : Name.t) :
  lookup f (parseErrorSchema (all_issues rt d)) <> None
  <-> field_fails rt f d = true.
Proof.
  rewrite parseErrorSchema_lookup. split.
  - intros [c H]. exact (issue_field_fails d f c H).
  - apply field_fails_issue.
Qed.

End WithRuntime.

End SchemaFacts.

(** ** Claims about the schema *)

Module SchemaClaims.

Import JsString JsStringFacts Zod ZodFacts SchemaFacts.

(** C2, as stated, fails: the image field does not accept every string.
    For no runtime does the text [lion] pass the [image] schema, whose URL
    check runs before the transform. *)
Lemma image_rejects_plain_text :
  ~ (exists rt : Runtime,
        is_valid (image_schema rt (Some (lit "lion"))) = true).
Proof. intros [rt H]. vm_compute in H. discriminate. Qed.

(** C2, amended: the schema of [common_name] and of [description] accepts
    every string, and yields [null] for a string that is empty or white
    space only and the trimmed string otherwise; the schema of [image]
    does the same on every string that passes its URL check. *)
Theorem nullable_text_normalised (rt : Runtime) (s : jsstring) :
  nullable_text_schema (Some s)
  = Valid (if all_whitespace s then None else Some (trim s))
  /\ (forall d : FormData,
         field_fails rt Name.common_name d = false
         /\ field_fails rt Name.description d = false)
  /\ (forall w1 c w2 : jsstring,
         s = w1 ++ c ++ w2 -> c <> [] ->
         all_whitespace w1 = true -> all_whitespace w2 = true ->
         starts_solid c -> ends_solid c ->
         nullable_text_schema (Some s) = Valid (Some c))
  /\ (Url.parses rt s = true ->
      image_schema rt (Some s) = Valid (Some (trim s))).
Proof.
  assert (N : nullable_text_schema (Some s)
              = Valid (if all_whitespace s then None else Some (trim s))).
  { unfold nullable_text_schema. now rewrite null_if_blank_spec. }
  split; [exact N|]. split; [now split|]. split.
  - intros w1 c w2 -> Hc H1 H2 Hs He. rewrite N.
    rewrite (trim_surrounded w1 c w2 H1 H2 Hs He).
    destruct (all_whitespace (w1 ++ c ++ w2)) eqn:W; [|reflexivity].
    apply trim_nil_iff in W.
    rewrite (trim_surrounded w1 c w2 H1 H2 Hs He) in W. contradiction.
  - intros H. unfold image_schema. rewrite H, null_if_blank_spec.
    now rewrite (UrlFacts.parses_not_blank rt s H).
Qed.

(** At a padded image URL and a padded common name. *)
Lemma nullable_text_normalised_witness :
  Url.parses Sample.rt (lit " https://example.org/lion.png ") = true
  /\ image_schema Sample.rt (Some (lit " https://example.org/lion.png "))
     = Valid (Some (lit "https://example.org/lion.png"))
  /\ nullable_text_schema (Some (lit "  silver moss "))
     = Valid (Some (lit "silver moss")).
Proof.
  split; [reflexivity|]. split.
  - exact (proj2 (proj2 (proj2
      (nullable_text_normalised Sample.rt
         (lit " https://example.org/lion.png ")))) eq_refl).
  - apply (proj1 (proj2 (proj2
      (nullable_text_normalised Sample.rt (lit "  silver moss "))))
      (lit "  ") (lit "silver moss") (lit " ")); try reflexivity.
    discriminate.
Defined.

(** C8: a draft whose [total_population] is 0, -1 or 2.5 fails
    validation, with an error at that field; with 1, or with [null], and
    every other field valid, validation succeeds and keeps the value. *)
Theorem total_population_validation (rt : Runtime) (d : FormData) :
  (In (total_population d) [Some 0; Some (-1); Some 2.5]%float ->
   speciesSchema rt d = Failure (all_issues rt d)
   /\ lookup Name.total_population (parseErrorSchema (all_issues rt d))
      <> None)
  /\ (In (total_population d) [Some 1%float; None] ->
      (forall f, f <> Name.total_population -> field_fails rt f d = false) ->
      exists p, speciesSchema rt d = Success p
                /\ total_population p = total_population d)
  /\ total_population_schema None = Valid None.
Proof.
  split; [|split; [|reflexivity]].
  - intros H.
    assert (F : field_fails rt Name.total_population d = true).
    { simpl in *. destruct H as [<-|[<-|[<-|[]]]]; reflexivity. }
    split; [exact (speciesSchema_fails rt d Name.total_population F)|].
    now apply errors_at_failing_fields.
  - intros H Hothers.
    assert (V : total_population_schema (total_population d)
                = Valid (total_population d)).
    { simpl in H. destruct H as [<-|[<-|[]]]; reflexivity. }
    destruct (speciesSchema_passes rt d) as [p Hp].
    { intros f. destruct (Name.eq_dec f Name.total_population) as [->|Hf].
      - simpl. now rewrite V.
      - now apply Hothers. }
    exists p. split; [exact Hp|].
    apply speciesSchema_Success_inv in Hp as (_ & _ & _ & E & _).
    congruence.
Qed.

(** At the lion with population 2.5, and with population 1. *)
Lemma total_population_validation_witness :
  speciesSchema Sample.rt
    (mkFormData (lit "Panthera leo") None (lit "Animalia")
       (Some 2.5%float) None None)
  = Failure [(Name.total_population, invalid_type)]
  /\ exists p,
      speciesSchema Sample.rt
        (mkFormData (lit "Panthera leo") None (lit "Animalia")
           (Some 1%float) None None) = Success p
      /\ total_population p = Some 1%float.
Proof.
  split.
  - apply (proj1 (total_population_validation Sample.rt
             (mkFormData (lit "Panthera leo") None (lit "Animalia")
                (Some 2.5%float) None None))).
    simpl. tauto.
  - apply (proj1 (proj2 (total_population_validation Sample.rt
             (mkFormData (lit "Panthera leo") None (lit "Animalia")
                (Some 1%float) None None)))).
    + simpl. tauto.
    + intros f _. now destruct f.
Defined.

(** C9, as stated, fails: whatever the runtime, the image [a://@] followed
    by a no-break space passes the URL check (the host is the no-break
    space), the payload holds the trimmed [a://@], and that is no URL
    (credentials without a host): the payload does not validate again. *)
Lemma validation_not_idempotent :
  ~ (exists rt : Runtime,
        forall d p : FormData,
          speciesSchema rt d = Success p -> speciesSchema rt p = Success p).
Proof.
  intros [rt H].
  specialize (H (mkFormData (lit "Panthera leo") None (lit "Animalia") None
                   (Some (lit "a://@" ++ [0xA0%N])) None)
                (mkFormData (lit "Panthera leo") None (lit "Animalia") None
                   (Some (lit "a://@")) None)
                eq_refl).
  vm_compute in H. discriminate.
Qed.

(** C9, amended: a payload that validation produced validates again, to
    the identical payload, when its image (if it has one) passes the URL
    check; the other fields never change on a second validation. *)
Theorem validation_idempotent (rt : Runtime) (d p : FormData) :
  speciesSchema rt d = Success p ->
  (forall u, image p = Some u -> Url.parses rt u = true) ->
  speciesSchema rt p = Success p.
Proof.
  intros Hp Hurl.
  apply speciesSchema_Success_inv in Hp as (E1 & E2 & E3 & E4 & E5 & E6).
  assert (I : image_schema rt (image p) = Valid (image p)).
  { destruct (image p) as [u|] eqn:Ip; [|reflexivity].
    unfold image_schema. rewrite (Hurl u eq_refl). f_equal.
    unfold image_schema in E5.
    destruct (image d) as [s|]; [|discriminate].
    destruct (Url.parses rt s); [|discriminate].
    injection E5 as E5. rewrite <- E5.
    exact (null_if_blank_idempotent (Some s)). }
  rewrite (speciesSchema_Success_intro rt p
             (scientific_name_schema_idempotent _ E1)
             (kingdoms_parse_idempotent _ E3)
             (total_population_schema_idempotent _ E4) I).
  rewrite E2, E6, !null_if_blank_idempotent, <- E2, <- E6.
  now destruct p.
Qed.

(** At a lion draft with padded name and image URL. *)
Lemma validation_idempotent_witness :
  speciesSchema Sample.rt
    (mkFormData (lit "Panthera leo") None (lit "Animalia")
       (Some 25000%float) (Some (lit "https://example.org/lion.png")) None)
  = Success
      (mkFormData (lit "Panthera leo") None (lit "Animalia")
         (Some 25000%float) (Some (lit "https://example.org/lion.png")) None).
Proof.
  apply (validation_idempotent Sample.rt
           (mkFormData (lit " Panthera leo ") (Some (lit " ")) (lit "Animalia")
              (Some 25000%float)
              (Some (lit " https://example.org/lion.png")) (Some []))).
  - reflexivity.
  - intros u Hu. injection Hu as <-. reflexivity.
Defined.

End SchemaClaims.

(** ** The component *)

Module DialogFacts.

Import JsString JsStringFacts Zod ZodFacts SchemaFacts Dialog.

Lemma remove_at_last {A} (l : list A) (x : A) :
  remove_at (List.length l) (l ++ [x]) = l.
Proof.
  induction l as [|a r IH]; simpl; [reflexivity|]. now rewrite IH.
Qed.

Lemma nth_error_last {A} (l : list A) (x : A) :
  nth_error (l ++ [x]) (List.length l) = Some x.
Proof.
  induction l as [|a r IH]; simpl; [reflexivity | exact IH].
Qed.

Lemma Forall_remove_at {A} (P : A -> Prop) (n : nat) (l : list A) :
  Forall P l -> Forall P (remove_at n l).
Proof.
  revert n. induction l as [|a r IH]; intros n H; simpl.
  - destruct n; constructor.
  - inversion H as [|? ? Ha Hr]; subst.
    destruct n; [exact Hr|]. constructor; [exact Ha | now apply IH].
Qed.

(** The edit block shows [Confirm] to the author while editing, and
    [Delete Species] to the author while not editing. *)
Lemma Confirm_rendered (p : Props) (st : State) :
  existsb (Button_eqb Confirm) (buttons p st)
  = is_author p && isEditing st.
Proof.
  unfold buttons. now destruct (is_author p), (isEditing st).
Qed.

Lemma DeleteSpecies_rendered (p : Props) (st : State) :
  existsb (Button_eqb DeleteSpecies) (buttons p st)
  = is_author p && negb (isEditing st).
Proof.
  unfold buttons. now destruct (is_author p), (isEditing st).
Qed.

Section WithRuntime.

Variable rt : Runtime.

Lemma speciesSchema_Failure_field (d : FormData)
  (issues : list (Name.t * ZodIssueCode)) :
  speciesSchema rt d = Failure issues ->
  exists f, field_fails rt f d = true.
Proof.
  intros H.
  destruct (field_fails rt Name.scientific_name d) eqn:F1; [eauto|].
  destruct (field_fails rt Name.kingdom d) eqn:F3; [eauto|].
  destruct (field_fails rt Name.total_population d) eqn:F4; [eauto|].
  destruct (field_fails rt Name.image d) eqn:F5; [eauto|].
  destruct (speciesSchema_passes rt d) as [p Hp]; [|congruence].
  intros f. destruct f; try assumption; reflexivity.
Qed.

Lemma handleSubmit_Failure (p : Props) (st : State)
  (issues : list (Name.t * ZodIssueCode)) :
  speciesSchema rt (values (form st)) = Failure issues ->
  handleSubmit rt p st
  = (mkState (isEditing st)
       (mkForm (values (form st)) (formDefaults (form st))
          (parseErrorSchema (all_issues rt (values (form st)))))
       (pending st),
     []).
Proof.
  intros H. unfold handleSubmit. rewrite H.
  now rewrite (speciesSchema_Failure_inv rt _ H).
Qed.

Lemma handleSubmit_Success (p : Props) (st : State) (input : FormData) :
  speciesSchema rt (values (form st)) = Success input ->
  handleSubmit rt p st
  = (mkState (isEditing st)
       (mkForm (values (form st)) (formDefaults (form st)) [])
       (pending st ++ [AwaitUpdate input]),
     [SupabaseUpdate (Species.id (species p)) input]).
Proof.
  intros H. unfold handleSubmit. now rewrite H.
Qed.

Lemma handleSubmit_cases (p : Props) (st : State) :
  (exists issues,
      speciesSchema rt (values (form st)) = Failure issues
      /\ handleSubmit rt p st
         = (mkState (isEditing st)
              (mkForm (values (form st)) (formDefaults (form st))
                 (parseErrorSchema (all_issues rt (values (form st)))))
              (pending st),
            []))
  \/ (exists input,
         speciesSchema rt (values (form st)) = Success input
         /\ handleSubmit rt p st
            = (mkState (isEditing st)
                 (mkForm (values (form st)) (formDefaults (form st)) [])
                 (pending st ++ [AwaitUpdate input]),
               [SupabaseUpdate (Species.id (species p)) input])).
Proof.
  destruct (speciesSchema rt (values (form st))) as [input|issues] eqn:E.
  - right. exists input. split; [reflexivity|].
    now apply handleSubmit_Success.
  - left. exists issues. split; [reflexivity|].
    exact (handleSubmit_Failure p st E).
Qed.

(** View Full Details is rendered for every viewer in every state. *)
Lemma ViewFullDetails_rendered (p : Props) (st : State) :
  existsb (Button_eqb ViewFullDetails) (buttons p st) = true.
Proof.
  unfold buttons. now destruct (is_author p), (isEditing st).
Qed.

Lemma step_ViewFullDetails_Success (p : Props) (st : State) (c : bool)
  (input : FormData) :
  speciesSchema rt (values (form st)) = Success input ->
  step rt p st (Click ViewFullDetails c)
  = Some
      (mkState (isEditing st)
         (mkForm (values (form st)) (formDefaults (form st)) [])
         (pending st ++ [AwaitUpdate input]),
       [RouterPush (Species.id (species p));
        SupabaseUpdate (Species.id (species p)) input]).
Proof.
  intros Hi. unfold step.
  rewrite ViewFullDetails_rendered, (handleSubmit_Success p st Hi).
  reflexivity.
Qed.

Lemma step_Confirm_Success (p : Props) (st : State) (c : bool)
  (input : FormData) :
  is_author p = true -> isEditing st = true ->
  speciesSchema rt (values (form st)) = Success input ->
  step rt p st (Click Confirm c)
  = Some
      (mkState true (mkForm (values (form st)) (formDefaults (form st)) [])
         (pending st ++ [AwaitUpdate input]),
       [SupabaseUpdate (Species.id (species p)) input]).
Proof.
  intros Ha He Hi. unfold step.
  rewrite Confirm_rendered, Ha, (handleSubmit_Success p st Hi), He.
  reflexivity.
Qed.

Lemma step_Confirm_Failure (p : Props) (st : State) (c : bool)
  (issues : list (Name.t * ZodIssueCode)) :
  is_author p = true -> isEditing st = true ->
  speciesSchema rt (values (form st)) = Failure issues ->
  step rt p st (Click Confirm c) = Some (handleSubmit rt p st).
Proof.
  intros Ha He _. unfold step. now rewrite Confirm_rendered, Ha, He.
Qed.

Lemma step_Delete_confirmed (p : Props) (st : State) :
  is_author p = true -> isEditing st = false ->
  step rt p st (Click DeleteSpecies true)
  = Some
      (mkState false (form st) (pending st ++ [AwaitDelete]),
       [SupabaseDelete (Species.id (species p))]).
Proof.
  intros Ha He. unfold step. rewrite DeleteSpecies_rendered, Ha, He. simpl.
  unfold suspend. now rewrite He.
Qed.

(** A value that parses to [null] was [null]. *)
Lemma total_population_schema_None (v : option float) :
  total_population_schema v = Valid None -> v = None.
Proof.
  destruct v as [x|]; simpl; [|reflexivity].
  destruct (number_schema x); discriminate.
Qed.

Lemma step_population_seeded (p : Props) (st st' : State) (ev : Event)
  (out : list Effect) :
  population_seeded p st -> step rt p st ev = Some (st', out) ->
  population_seeded p st'.
Proof.
  intros (Hv & Hd & Hp) H. unfold step in H.
  destruct ev as [b confirmed|f text|text|value|n error].
  - destruct (existsb _ _); [|discriminate].
    destruct b.
    + injection H as H. unfold handleSubmit in H.
      destruct (speciesSchema rt (values (form st))) as [input|issues] eqn:E;
        injection H as <- <-.
      * repeat split; try assumption. simpl.
        apply Forall_app. split; [exact Hp|]. constructor; [|constructor].
        intros N. apply Hv.
        apply speciesSchema_Success_inv in E as (_ & _ & _ & E & _).
        rewrite N in E. now apply total_population_schema_None.
      * now repeat split.
    + injection H as <- <-.
      unfold handleCancel. destruct (negb confirmed); [now repeat split|].
      repeat split; try assumption; intros N; exact N.
    + injection H as <- <-. now repeat split.
    + injection H as H. unfold handleDelete_request in H.
      destruct confirmed; injection H as <- <-; [|now repeat split].
      repeat split; try assumption. simpl.
      apply Forall_app. split; [exact Hp|]. now repeat constructor.
    + injection H as <- <-.
      destruct (handleSubmit_cases p st)
        as [(issues & E & ->)|(input & E & ->)]; simpl.
      * now repeat split.
      * repeat split; try assumption. simpl.
        apply Forall_app. split; [exact Hp|]. constructor; [|constructor].
        intros N. apply Hv.
        apply speciesSchema_Success_inv in E as (_ & _ & _ & E & _).
        rewrite N in E. now apply total_population_schema_None.
  - destruct (rendered_readOnly _); [discriminate|].
    destruct f; simpl in H; try discriminate; injection H as <- <-;
      (repeat split; try assumption; exact Hv).
  - destruct (rendered_readOnly _); [discriminate|].
    injection H as <- <-.
    repeat split; try assumption. intros N. discriminate.
  - destruct (rendered_readOnly _); [discriminate|].
    unfold onValueChange in H.
    destruct (kingdoms_parse value); [|discriminate].
    injection H as <- <-. repeat split; try assumption; exact Hv.
  - destruct (nth_error (pending st) n) as [[input|]|] eqn:E;
      [| |discriminate].
    + assert (Hi : seeded p input).
      { apply nth_error_In in E.
        rewrite Forall_forall in Hp. exact (Hp _ E). }
      destruct error as [e|]; simpl in H; injection H as <- <-;
        (repeat split; try assumption; now apply Forall_remove_at).
    + unfold handleDelete_response in H. injection H as <- <-.
      repeat split; try assumption. simpl. now apply Forall_remove_at.
Qed.

Lemma run_population_seeded (p : Props) (evs : list Event) :
  forall (st st' : State) (out : list Effect),
    population_seeded p st -> run rt p st evs = Some (st', out) ->
    population_seeded p st'.
Proof.
  induction evs as [|ev rest IH]; intros st st' out Hst H; simpl in H.
  - now injection H as <- <-.
  - destruct (step rt p st ev) as [[st1 out1]|] eqn:E; [|discriminate].
    destruct (run rt p st1 rest) as [[st2 out2]|] eqn:R; [|discriminate].
    injection H as <- <-.
    exact (IH _ _ _ (step_population_seeded _ Hst E) R).
Qed.

Lemma initial_population_seeded (p : Props) :
  population_seeded p (initial p).
Proof.
  repeat split; try (intros N; exact N). constructor.
Qed.

End WithRuntime.

End DialogFacts.

(** ** Claims about the component *)

Module DialogClaims.

Import JsString JsStringFacts Zod ZodFacts SchemaFacts Dialog DialogFacts.

(** C1 (the code departs from it): when the remote delete returns an
    error, the continuation of [handleDelete] alerts and then runs the
    rest of the success path all the same: it refreshes the router, sets
    [isEditing] to false and toasts that the species was deleted.  In the
    run below the author confirms the delete, starts editing while the
    request is in flight, and the failed response ends the edit mode. *)
Theorem delete_failure_runs_success_path (p : Props) (st : State)
  (e : PostgrestError) :
  handleDelete_response p (Some e) st
  = (mkState false (form st) (pending st),
     [Alert "An error occurred while deleting the species.";
      RouterRefresh;
      Toast "Species deleted successfully."
        (lit "The species" ++ Species.scientific_name (species p)
         ++ lit "has been deleted.")
        plain])
  /\ run Sample.rt Sample.props (initial Sample.props)
       [Click DeleteSpecies true; Click EditSpecies false;
        Response 0 (Some Sample.network_error)]
     = Some
         (mkState false (useForm Sample.lion) [],
          [SupabaseDelete 7;
           Alert "An error occurred while deleting the species.";
           RouterRefresh;
           Toast "Species deleted successfully."
             (lit "The species Panthera leo has been deleted.") plain]).
Proof. split; reflexivity. Qed.

(** C3 (the code departs from it): the [Select] of the kingdom gets no
    [readOnly] (or [disabled]) prop, so it is never read-only and its
    change handler runs in every state, also when not editing; the five
    other controls are read-only exactly when [isEditing] is false. *)
Theorem kingdom_select_not_readOnly (rt : Runtime) (p : Props) (st : State) :
  rendered_readOnly (control st Name.kingdom) = false
  /\ (forall f,
         rendered_readOnly (control st f)
         = if Name.eqb f Name.kingdom then false else negb (isEditing st))
  /\ (exists st',
         step rt p st (ChangeKingdom (lit "Fungi")) = Some (st', [])
         /\ kingdom (values (form st')) = lit "Fungi"
         /\ isEditing st' = isEditing st).
Proof.
  split; [reflexivity|]. split; [now intros []|].
  eexists. split; [reflexivity|]. now split.
Qed.

(** C4, as stated, fails: the author starts editing and presses Confirm
    twice; both updates are sent and both are in flight. *)
Lemma second_submit_in_flight :
  ~ (forall (rt : Runtime) (p : Props) (evs : list Event) (st : State)
       (out : list Effect),
        run rt p (initial p) evs = Some (st, out) ->
        (List.length (pending st) <= 1)%nat).
Proof.
  intros H.
  destruct (run Sample.rt Sample.props (initial Sample.props)
              [Click EditSpecies false; Click Confirm false;
               Click Confirm false])
    as [[st out]|] eqn:E.
  - specialize (H _ _ _ _ _ E). vm_compute in E.
    injection E as <- <-. simpl in H. lia.
  - vm_compute in E. discriminate.
Qed.

(** C4, amended: no request in flight is consulted.  The form is
    submitted by Confirm, rendered for the author exactly while
    [isEditing] is true, and by View Full Details, rendered for every
    viewer in every state: a submit button as well, since it has no
    [type] inside the form.  Either submit of a valid draft sends one more
    update, whatever is already in flight.  Delete Species is rendered for
    the author exactly while [isEditing] is false, and a confirmed click
    sends one more delete, whatever is already in flight. *)
Theorem in_flight_requests_not_consulted (rt : Runtime) (p : Props)
  (st : State) :
  (existsb (Button_eqb Confirm) (buttons p st)
   = is_author p && isEditing st
   /\ existsb (Button_eqb DeleteSpecies) (buttons p st)
      = is_author p && negb (isEditing st)
   /\ existsb (Button_eqb ViewFullDetails) (buttons p st) = true)
  /\ (forall c input,
         speciesSchema rt (values (form st)) = Success input ->
         step rt p st (Click ViewFullDetails c)
         = Some
             (mkState (isEditing st)
                (mkForm (values (form st)) (formDefaults (form st)) [])
                (pending st ++ [AwaitUpdate input]),
              [RouterPush (Species.id (species p));
               SupabaseUpdate (Species.id (species p)) input]))
  /\ (is_author p = true ->
      (isEditing st = true ->
       (forall input,
           speciesSchema rt (values (form st)) = Success input ->
           step rt p st (Click Confirm false)
           = Some
               (mkState true
                  (mkForm (values (form st)) (formDefaults (form st)) [])
                  (pending st ++ [AwaitUpdate input]),
                [SupabaseUpdate (Species.id (species p)) input]))
       /\ (forall c, step rt p st (Click DeleteSpecies c) = None))
      /\ (isEditing st = false ->
          step rt p st (Click DeleteSpecies true)
          = Some
              (mkState false (form st) (pending st ++ [AwaitDelete]),
               [SupabaseDelete (Species.id (species p))])
          /\ (forall c, step rt p st (Click Confirm c) = None))).
Proof.
  split; [|split].
  - split; [apply Confirm_rendered|].
    split; [apply DeleteSpecies_rendered | apply ViewFullDetails_rendered].
  - intros c input Hi. exact (step_ViewFullDetails_Success rt p st c Hi).
  - intros Ha. split; intros He.
    + split.
      * intros input Hi.
        exact (step_Confirm_Success rt p st false Ha He Hi).
      * intros c. unfold step. now rewrite DeleteSpecies_rendered, Ha, He.
    + split.
      * exact (step_Delete_confirmed rt p st Ha He).
      * intros c. unfold step. now rewrite Confirm_rendered, Ha, He.
Qed.

(** At the state in which one update is already in flight, for Confirm;
    and at a viewer who is not the author, for View Full Details. *)
Lemma in_flight_requests_not_consulted_witness :
  pending Sample.submitting = [AwaitUpdate Sample.payload]
  /\ step Sample.rt Sample.props Sample.submitting (Click Confirm false)
     = Some
         (mkState true
            (mkForm (defaultValues Sample.lion) (defaultValues Sample.lion)
               [])
            [AwaitUpdate Sample.payload; AwaitUpdate Sample.payload],
          [SupabaseUpdate 7 Sample.payload])
  /\ step Sample.rt Sample.visitor (initial Sample.visitor)
       (Click ViewFullDetails false)
     = Some
         (mkState false
            (mkForm (defaultValues Sample.lion) (defaultValues Sample.lion)
               [])
            [AwaitUpdate Sample.payload],
          [RouterPush 7; SupabaseUpdate 7 Sample.payload]).
Proof.
  split; [reflexivity|]. split.
  - exact (proj1 (proj1 (proj2 (proj2
             (in_flight_requests_not_consulted Sample.rt Sample.props
                Sample.submitting)) eq_refl) eq_refl)
             Sample.payload eq_refl).
  - exact (proj1 (proj2
             (in_flight_requests_not_consulted Sample.rt Sample.visitor
                (initial Sample.visitor)))
             false Sample.payload eq_refl).
Defined.

(** C5: when the draft fails the schema, submitting sends nothing (no
    effect, nothing in flight), [isEditing] and the draft are as before,
    and the errors of the form are at exactly the fields whose schema
    fails, of which there is at least one. *)
Theorem invalid_submit_stays_local (rt : Runtime) (p : Props) (st : State)
  (issues : list (Name.t * ZodIssueCode)) :
  speciesSchema rt (values (form st)) = Failure issues ->
  let st' := fst (handleSubmit rt p st) in
  snd (handleSubmit rt p st) = []
  /\ pending st' = pending st
  /\ isEditing st' = isEditing st
  /\ values (form st') = values (form st)
  /\ formDefaults (form st') = formDefaults (form st)
  /\ (exists f, lookup f (errors (form st')) <> None)
  /\ (forall f,
         lookup f (errors (form st')) <> None
         <-> field_fails rt f (values (form st)) = true)
  /\ (is_author p = true -> isEditing st = true ->
      forall c, step rt p st (Click Confirm c) = Some (st', [])).
Proof.
  intros H st'. subst st'.
  pose proof (handleSubmit_Failure rt p st H) as E. rewrite E.
  cbn [fst snd isEditing form pending values formDefaults errors].
  repeat (split; [reflexivity|]).
  split; [|split].
  - destruct (speciesSchema_Failure_field rt _ H) as [f Hf].
    exists f. now apply errors_at_failing_fields.
  - intros f. apply errors_at_failing_fields.
  - intros Ha He c. now rewrite (step_Confirm_Failure rt p st c Ha He H), E.
Qed.

(** At the draft with population -5: one error, at that field. *)
Lemma invalid_submit_stays_local_witness :
  step Sample.rt Sample.props Sample.negative_draft (Click Confirm false)
  = Some
      (mkState true
         (mkForm (values (form Sample.negative_draft))
            (defaultValues Sample.lion)
            [(Name.total_population, too_small)])
         [],
       []).
Proof.
  exact (proj2 (proj2 (proj2 (proj2 (proj2 (proj2 (proj2
           (@invalid_submit_stays_local Sample.rt Sample.props
              Sample.negative_draft _ eq_refl)))))))
           eq_refl eq_refl false).
Defined.

(** C6: when the draft passes the schema and the update returns an error,
    the run of Confirm and the response leaves the draft and the default
    values as they were and [isEditing] true; it sends the update and
    toasts the error, and does nothing else.  The continuation of
    [onSubmit] changes no state on an error, whatever the state. *)
Theorem failed_update_keeps_draft (rt : Runtime) (p : Props) (st : State)
  (input : FormData) (e : PostgrestError) :
  is_author p = true -> isEditing st = true ->
  speciesSchema rt (values (form st)) = Success input ->
  run rt p st [Click Confirm false;
               Response (List.length (pending st)) (Some e)]
  = Some
      (mkState true (mkForm (values (form st)) (formDefaults (form st)) [])
         (pending st),
       [SupabaseUpdate (Species.id (species p)) input;
        Toast "Something went wrong." (message e) destructive])
  /\ (forall st0,
         onSubmit_response input (Some e) st0
         = (st0, [Toast "Something went wrong." (message e) destructive])).
Proof.
  intros Ha He Hi. split; [|reflexivity].
  unfold run.
  rewrite (step_Confirm_Success rt p st false Ha He Hi).
  unfold step. simpl pending. rewrite nth_error_last.
  unfold resume. simpl. now rewrite remove_at_last.
Qed.

(** At the lion being edited, with a network error as the response. *)
Lemma failed_update_keeps_draft_witness :
  run Sample.rt Sample.props Sample.editing
    [Click Confirm false; Response 0 (Some Sample.network_error)]
  = Some
      (mkState true
         (mkForm (defaultValues Sample.lion) (defaultValues Sample.lion) [])
         [],
       [SupabaseUpdate 7 Sample.payload;
        Toast "Something went wrong." (lit "network error") destructive]).
Proof.
  exact (proj1
           (@failed_update_keeps_draft Sample.rt Sample.props Sample.editing
              Sample.payload Sample.network_error eq_refl eq_refl eq_refl)).
Defined.

(** C7: when the draft passes the schema and the update succeeds, the run
    of Confirm and the response sends the parsed payload, makes it the
    form's values and default values with no error left, sets
    [isEditing] to false, refreshes the router and toasts the success.
    The continuation of [onSubmit] does so from whatever state it resumes
    in. *)
Theorem successful_update_adopts_payload (rt : Runtime) (p : Props)
  (st : State) (input : FormData) :
  is_author p = true -> isEditing st = true ->
  speciesSchema rt (values (form st)) = Success input ->
  run rt p st [Click Confirm false; Response (List.length (pending st)) None]
  = Some
      (mkState false (mkForm input input []) (pending st),
       [SupabaseUpdate (Species.id (species p)) input;
        RouterRefresh;
        Toast "Changes saved!"
          (lit "Saved your changes to " ++ scientific_name input ++ lit ".")
          plain])
  /\ (forall st0,
         onSubmit_response input None st0
         = (mkState false (mkForm input input []) (pending st0),
            [RouterRefresh;
             Toast "Changes saved!"
               (lit "Saved your changes to " ++ scientific_name input
                ++ lit ".")
               plain])).
Proof.
  intros Ha He Hi. split; [|reflexivity]. unfold run.
  rewrite (step_Confirm_Success rt p st false Ha He Hi).
  unfold step. simpl pending. rewrite nth_error_last.
  unfold resume. simpl. now rewrite remove_at_last.
Qed.

(** At the lion with the population changed to 25000. *)
Lemma successful_update_adopts_payload_witness :
  let saved :=
    mkFormData (lit "Panthera leo") None (lit "Animalia")
      (Some 25000%float) None None in
  run Sample.rt Sample.props
    (onPopulationChange Sample.rt (lit "25000") Sample.editing)
    [Click Confirm false; Response 0 None]
  = Some
      (mkState false (mkForm saved saved []) [],
       [SupabaseUpdate 7 saved;
        RouterRefresh;
        Toast "Changes saved!" (lit "Saved your changes to Panthera leo.")
          plain]).
Proof.
  exact (proj1
           (@successful_update_adopts_payload Sample.rt Sample.props
              (onPopulationChange Sample.rt (lit "25000") Sample.editing)
              (mkFormData (lit "Panthera leo") None (lit "Animalia")
                 (Some 25000%float) None None)
              eq_refl eq_refl eq_refl)).
Defined.

(** C10: the change handler of the population input stores
    [+event.target.value], a number: cleared text gives 0, which the
    schema rejects; no change through the input leaves [null]; and on
    every run from the initial state the population of the form is
    [null] only if the row's population, the seeded default, is. *)
Theorem population_input_never_null (rt : Runtime) (p : Props) :
  to_number rt [] = 0%float
  /\ (forall st,
         total_population (values (form (onPopulationChange rt [] st)))
         = Some 0%float
         /\ field_fails rt Name.total_population
              (values (form (onPopulationChange rt [] st))) = true)
  /\ (forall st text st' out,
         step rt p st (ChangePopulation text) = Some (st', out) ->
         total_population (values (form st')) = Some (to_number rt text))
  /\ (forall evs st out,
         run rt p (initial p) evs = Some (st, out) ->
         total_population (values (form st)) = None ->
         Species.total_population (species p) = None).
Proof.
  split; [reflexivity|]. split; [now split|]. split.
  - intros st text st' out H. unfold step in H.
    destruct (rendered_readOnly _); [discriminate|].
    now injection H as <- <-.
  - intros evs st out H.
    exact (proj1 (@run_population_seeded rt p evs _ _ _
                    (initial_population_seeded p) H)).
Qed.

(** At the moss, whose population is [null] in the row. *)
Lemma population_input_never_null_witness :
  (exists st,
      step Sample.rt Sample.moss_props
        (startEditing (initial Sample.moss_props)) (ChangePopulation [])
      = Some (st, [])
      /\ total_population (values (form st)) = Some 0%float)
  /\ (exists st,
         run Sample.rt Sample.moss_props (initial Sample.moss_props)
           [Click EditSpecies false;
            ChangeText Name.common_name (lit "moss");
            Click Cancel true]
         = Some (st, [])
         /\ total_population (values (form st)) = None
         /\ Species.total_population Sample.moss = None).
Proof.
  split.
  - eexists. split; [reflexivity|].
    exact (proj1 (proj2 (proj2
             (population_input_never_null Sample.rt Sample.moss_props)))
             (startEditing (initial Sample.moss_props)) [] _ [] eq_refl).
  - eexists. split; [reflexivity|]. split; [reflexivity|].
    exact (proj2 (proj2 (proj2
             (population_input_never_null Sample.rt Sample.moss_props)))
             [Click EditSpecies false;
              ChangeText Name.common_name (lit "moss");
              Click Cancel true] _ [] eq_refl eq_refl).
Defined.

End DialogClaims.

(** ** Further properties of the schema and the handlers *)

Module MoreProperties.

Import JsString JsStringFacts Zod ZodFacts SchemaFacts Dialog DialogFacts.

(** X1: an image that is empty or white space only is rejected: the URL
    check runs before the transform that would turn it into [null]. *)
Theorem blank_image_rejected (rt : Runtime) (s : jsstring) :
  all_whitespace s = true ->
  image_schema rt (Some s) = Invalid [invalid_string].
Proof.
  intros W. unfold image_schema.
  destruct (Url.parses rt s) eqn:P; [|reflexivity].
  apply UrlFacts.parses_not_blank in P. congruence.
Qed.

(** At the empty string and at two spaces. *)
Lemma blank_image_rejected_witness :
  image_schema Sample.rt (Some []) = Invalid [invalid_string]
  /\ image_schema Sample.rt (Some (lit "  ")) = Invalid [invalid_string].
Proof.
  split.
  - exact (@blank_image_rejected Sample.rt [] eq_refl).
  - exact (@blank_image_rejected Sample.rt (lit "  ") eq_refl).
Defined.

(** X2: a cancel that the user declines changes nothing; a confirmed
    cancel resets the form to the row's values and leaves edit mode. *)
Theorem cancel_asks_first (rt : Runtime) (p : Props) (st : State) :
  handleCancel p false st = st
  /\ handleCancel p true st
     = mkState false
         (mkForm (defaultValues (species p)) (defaultValues (species p)) [])
         (pending st)
  /\ (is_author p = true -> isEditing st = true ->
      step rt p st (Click Cancel false) = Some (st, [])).
Proof.
  split; [reflexivity|]. split; [reflexivity|].
  intros Ha He. unfold step, buttons. now rewrite Ha, He.
Qed.

(** At the draft with population -5. *)
Lemma cancel_asks_first_witness :
  step Sample.rt Sample.props Sample.negative_draft (Click Cancel false)
  = Some (Sample.negative_draft, []).
Proof.
  exact (proj2 (proj2
           (cancel_asks_first Sample.rt Sample.props Sample.negative_draft))
           eq_refl eq_refl).
Defined.

(** X3: for a viewer who is not the author the edit block is not
    rendered: View Full Details is the only button of the form, and none
    of Edit Species, Confirm, Cancel and Delete Species can be clicked. *)
Theorem visitor_cannot_edit (rt : Runtime) (p : Props) (st : State) :
  is_author p = false ->
  buttons p st = [ViewFullDetails]
  /\ forall b c, b <> ViewFullDetails -> step rt p st (Click b c) = None.
Proof.
  intros Ha. unfold step, buttons. rewrite Ha. split; [reflexivity|].
  intros b c Hb. destruct b; try reflexivity. now contradiction Hb.
Qed.

(** At a viewer who is not the author of the lion. *)
Lemma visitor_cannot_edit_witness :
  step Sample.rt Sample.visitor (initial Sample.visitor)
    (Click EditSpecies false) = None.
Proof.
  apply (proj2 (@visitor_cannot_edit Sample.rt Sample.visitor
                  (initial Sample.visitor) eq_refl)).
  discriminate.
Defined.

(** X4: a kingdom outside the enum fails validation with an error at the
    kingdom field, and submitting such a draft sends nothing. *)
Theorem kingdom_outside_enum_rejected (rt : Runtime) (p : Props)
  (st : State) :
  existsb (eqb (kingdom (values (form st)))) kingdoms = false ->
  speciesSchema rt (values (form st))
  = Failure (all_issues rt (values (form st)))
  /\ lookup Name.kingdom
       (parseErrorSchema (all_issues rt (values (form st)))) <> None
  /\ snd (handleSubmit rt p st) = []
  /\ pending (fst (handleSubmit rt p st)) = pending st.
Proof.
  intros H.
  assert (F : field_fails rt Name.kingdom (values (form st)) = true).
  { simpl. unfold kingdoms_parse. now rewrite H. }
  pose proof (speciesSchema_fails rt _ _ F) as E.
  split; [exact E|]. split; [now apply errors_at_failing_fields|].
  now rewrite (handleSubmit_Failure rt p st E).
Qed.

(** At the kingdom [Animal]. *)
Lemma kingdom_outside_enum_rejected_witness :
  speciesSchema Sample.rt
    (mkFormData (lit "Panthera leo") None (lit "Animal") None None None)
  = Failure [(Name.kingdom, invalid_enum_value)].
Proof.
  exact (proj1
           (@kingdom_outside_enum_rejected Sample.rt Sample.props
              (mkState true
                 (mkForm
                    (mkFormData (lit "Panthera leo") None (lit "Animal")
                       None None None)
                    (defaultValues Sample.lion) [])
                 [])
              eq_refl)).
Defined.

(** X5: a confirmed delete that succeeds refreshes the router, sets
    [isEditing] to false and toasts the success; a declined delete does
    nothing. *)
Theorem delete_success (rt : Runtime) (p : Props) (st : State) :
  handleDelete_request p false st = (st, [])
  /\ (is_author p = true -> isEditing st = false ->
      run rt p st
        [Click DeleteSpecies true; Response (List.length (pending st)) None]
      = Some
          (mkState false (form st) (pending st),
           [SupabaseDelete (Species.id (species p));
            RouterRefresh;
            Toast "Species deleted successfully."
              (lit "The species" ++ Species.scientific_name (species p)
               ++ lit "has been deleted.")
              plain])).
Proof.
  split; [reflexivity|]. intros Ha He.
  unfold run. rewrite (step_Delete_confirmed rt p st Ha He).
  unfold step. simpl pending. rewrite nth_error_last.
  unfold resume. simpl. now rewrite remove_at_last.
Qed.

(** At the lion, viewed by its author. *)
Lemma delete_success_witness :
  run Sample.rt Sample.props (initial Sample.props)
    [Click DeleteSpecies true; Response 0 None]
  = Some
      (initial Sample.props,
       [SupabaseDelete 7;
        RouterRefresh;
        Toast "Species deleted successfully."
          (lit "The species Panthera leo has been deleted.") plain]).
Proof.
  exact (proj2
           (delete_success Sample.rt Sample.props (initial Sample.props))
           eq_refl eq_refl).
Defined.

(** X6: the scientific name is trimmed, and a name that is empty once
    trimmed is rejected. *)
Theorem scientific_name_trimmed (s : jsstring) :
  scientific_name_schema s
  = if all_whitespace s then Invalid [too_small] else Valid (trim s).
Proof.
  unfold scientific_name_schema. rewrite trim_idempotent.
  destruct (all_whitespace s) eqn:W.
  - apply trim_nil_iff in W. now rewrite W.
  - destruct (trim s) as [|c r] eqn:E; [|reflexivity].
    apply trim_nil_iff in E. congruence.
Qed.

End MoreProperties.

(** ** Payloads and requests *)

Module PayloadFacts.

Import JsString JsStringFacts Zod ZodFacts SchemaFacts Dialog DialogFacts.
Import Payload.

Lemma normalized_null_if_blank (v : option jsstring) :
  normalized_text (null_if_blank v).
Proof.
  destruct v as [s|]; [|exact I]. rewrite null_if_blank_spec.
  destruct (all_whitespace s) eqn:W; [exact I|]. split.
  - intros E. apply trim_nil_iff in E. congruence.
  - apply trim_idempotent.
Qed.

Lemma number_schema_Valid (x y : float) :
  number_schema x = Valid y -> y = x /\ positive_integer x.
Proof.
  unfold number_schema, positive_integer.
  destruct (PrimFloat.is_nan x); [discriminate|].
  destruct (isInteger x); [|discriminate].
  destruct (PrimFloat.leb x 0); [discriminate|].
  destruct (PrimFloat.ltb x 1); [discriminate|].
  intros H. injection H as <-. now repeat split.
Qed.

Lemma kingdoms_parse_Valid (s k : jsstring) :
  kingdoms_parse s = Valid k -> k = s /\ in_enum s.
Proof.
  unfold kingdoms_parse, in_enum.
  destruct (existsb (eqb s) kingdoms); [|discriminate].
  intros H. injection H as <-. now split.
Qed.

Lemma in_enum_In (k : jsstring) : in_enum k -> In k kingdoms.
Proof.
  unfold in_enum. intros H. apply existsb_exists in H as [x [Hx E]].
  apply jsstring_eqb_eq in E. now subst.
Qed.

Section WithRuntime.

Variable rt : Runtime.
Variable p : Props.

(** What one event sends: an update carries the parse of the form's
    values; a delete comes from a confirmed click of the author. *)
Lemma step_requests (st st' : State) (ev : Event) (out : list Effect) :
  step rt p st ev = Some (st', out) ->
  (forall id input,
      In (SupabaseUpdate id input) out ->
      id = Species.id (species p)
      /\ speciesSchema rt (values (form st)) = Success input)
  /\ (forall id,
         In (SupabaseDelete id) out ->
         id = Species.id (species p) /\ is_author p = true
         /\ ev = Click DeleteSpecies true).
Proof.
  intros H. unfold step in H.
  destruct ev as [b confirmed|f text|text|value|n error].
  - destruct (existsb (Button_eqb b) (buttons p st)) eqn:B; [|discriminate].
    destruct b.
    + injection H as H. unfold handleSubmit in H.
      destruct (speciesSchema rt (values (form st))) as [input|issues] eqn:E;
        injection H as <- <-; split; intros; simpl in *;
        intuition (try discriminate); congruence.
    + injection H as <- <-. split; intros; simpl in *; tauto.
    + injection H as <- <-. split; intros; simpl in *; tauto.
    + injection H as H. unfold handleDelete_request in H.
      rewrite DeleteSpecies_rendered in B.
      apply andb_true_iff in B as [Ha _].
      destruct confirmed; injection H as <- <-; split; intros; simpl in *;
        intuition (try discriminate); congruence.
    + injection H as <- <-.
      destruct (handleSubmit_cases rt p st)
        as [(issues & E & ->)|(input & E & ->)];
        split; intros; simpl in *;
        intuition (try discriminate); congruence.
  - destruct (rendered_readOnly _); [discriminate|].
    destruct (onTextChange rt f text st); [|discriminate].
    injection H as <- <-. split; intros; simpl in *; tauto.
  - destruct (rendered_readOnly _); [discriminate|].
    injection H as <- <-. split; intros; simpl in *; tauto.
  - destruct (rendered_readOnly _); [discriminate|].
    destruct (onValueChange rt value st); [|discriminate].
    injection H as <- <-. split; intros; simpl in *; tauto.
  - destruct (nth_error (pending st) n) as [[input|]|]; [| |discriminate].
    + destruct error; simpl in H; injection H as <- <-;
        split; intros; simpl in *; intuition discriminate.
    + unfold handleDelete_response in H. injection H as <- <-.
      destruct error; split; intros; simpl in *; intuition discriminate.
Qed.

Lemma step_kingdom_in_enum (st st' : State) (ev : Event)
  (out : list Effect) :
  in_enum (Species.kingdom (species p)) ->
  kingdom_in_enum st -> step rt p st ev = Some (st', out) ->
  kingdom_in_enum st'.
Proof.
  intros Hrow (Hv & Hp) H. unfold step in H.
  destruct ev as [b confirmed|f text|text|value|n error].
  - destruct (existsb _ _); [|discriminate].
    destruct b.
    + injection H as H. unfold handleSubmit in H.
      destruct (speciesSchema rt (values (form st))) as [input|issues] eqn:E;
        injection H as <- <-; (split; [exact Hv|]); [|exact Hp].
      simpl. apply Forall_app. split; [exact Hp|].
      constructor; [|constructor].
      apply speciesSchema_Success_inv in E as (_ & _ & E & _).
      apply kingdoms_parse_Valid in E as [-> _]. exact Hv.
    + injection H as <- <-.
      unfold handleCancel. destruct (negb confirmed); now split.
    + injection H as <- <-. now split.
    + injection H as H. unfold handleDelete_request in H.
      destruct confirmed; injection H as <- <-; [|now split].
      split; [exact Hv|]. simpl.
      apply Forall_app. split; [exact Hp|]. now repeat constructor.
    + injection H as <- <-.
      destruct (handleSubmit_cases rt p st)
        as [(issues & E & ->)|(input & E & ->)]; simpl;
        (split; [exact Hv|]); [exact Hp|].
      simpl. apply Forall_app. split; [exact Hp|].
      constructor; [|constructor].
      apply speciesSchema_Success_inv in E as (_ & _ & E & _).
      apply kingdoms_parse_Valid in E as [-> _]. exact Hv.
  - destruct (rendered_readOnly _); [discriminate|].
    destruct f; simpl in H; try discriminate; injection H as <- <-;
      now split.
  - destruct (rendered_readOnly _); [discriminate|].
    injection H as <- <-. now split.
  - destruct (rendered_readOnly _); [discriminate|].
    unfold onValueChange in H.
    destruct (kingdoms_parse value) as [k|] eqn:K; [|discriminate].
    injection H as <- <-. apply kingdoms_parse_Valid in K as [-> K].
    now split.
  - destruct (nth_error (pending st) n) as [[input|]|] eqn:E;
      [| |discriminate].
    + assert (Hi : in_enum (kingdom input)).
      { apply nth_error_In in E.
        rewrite Forall_forall in Hp. exact (Hp _ E). }
      destruct error as [e|]; simpl in H; injection H as <- <-;
        (split; [assumption|]); simpl; now apply Forall_remove_at.
    + unfold handleDelete_response in H. injection H as <- <-.
      split; [exact Hv|]. simpl. now apply Forall_remove_at.
Qed.

Lemma step_visitor (st st' : State) (ev : Event) (out : list Effect) :
  is_author p = false -> isEditing st = false ->
  step rt p st ev = Some (st', out) -> isEditing st' = false.
Proof.
  intros Ha He H. unfold step, buttons in H. rewrite Ha in H.
  destruct ev as [b confirmed|f text|text|value|n error].
  - destruct b; simpl in H; try discriminate.
    injection H as <- <-.
    now destruct (handleSubmit_cases rt p st)
      as [(issues & E & ->)|(input & E & ->)].
  - unfold control in H. rewrite He in H. now destruct f.
  - unfold control in H. now rewrite He in H.
  - simpl in H. unfold onValueChange in H.
    destruct (kingdoms_parse value); [|discriminate].
    now injection H as <- <-.
  - destruct (nth_error (pending st) n) as [[input|]|]; [| |discriminate].
    + destruct error; simpl in H; now injection H as <- <-.
    + unfold handleDelete_response in H. now injection H as <- <-.
Qed.

Lemma run_requests (evs : list Event) :
  forall (st st' : State) (out : list Effect),
    run rt p st evs = Some (st', out) ->
    (forall id input,
        In (SupabaseUpdate id input) out ->
        id = Species.id (species p)
        /\ exists v, speciesSchema rt v = Success input)
    /\ (forall id,
           In (SupabaseDelete id) out ->
           id = Species.id (species p) /\ is_author p = true
           /\ In (Click DeleteSpecies true) evs).
Proof.
  induction evs as [|ev rest IH]; intros st st' out H; simpl in H.
  - injection H as <- <-. split; intros; now simpl in *.
  - destruct (step rt p st ev) as [[st1 out1]|] eqn:E; [|discriminate].
    destruct (run rt p st1 rest) as [[st2 out2]|] eqn:R; [|discriminate].
    injection H as <- <-.
    destruct (step_requests _ _ E) as [U D].
    destruct (IH _ _ _ R) as [U' D'].
    split.
    + intros id input Hin. apply in_app_or in Hin as [Hin|Hin].
      * destruct (U _ _ Hin) as [-> Hs]. split; [reflexivity|eauto].
      * exact (U' _ _ Hin).
    + intros id Hin. apply in_app_or in Hin as [Hin|Hin].
      * destruct (D _ Hin) as (-> & Ha & ->). repeat split; trivial.
        now left.
      * destruct (D' _ Hin) as (-> & Ha & Hc). repeat split; trivial.
        now right.
Qed.

Lemma run_kingdom_in_enum (evs : list Event) :
  in_enum (Species.kingdom (species p)) ->
  forall (st st' : State) (out : list Effect),
    kingdom_in_enum st -> run rt p st evs = Some (st', out) ->
    kingdom_in_enum st'.
Proof.
  intros Hrow.
  induction evs as [|ev rest IH]; intros st st' out Hst H; simpl in H.
  - now injection H as <- <-.
  - destruct (step rt p st ev) as [[st1 out1]|] eqn:E; [|discriminate].
    destruct (run rt p st1 rest) as [[st2 out2]|] eqn:R; [|discriminate].
    injection H as <- <-.
    exact (IH _ _ _ (step_kingdom_in_enum _ Hrow Hst E) R).
Qed.

Lemma run_visitor (evs : list Event) :
  is_author p = false ->
  forall (st st' : State) (out : list Effect),
    isEditing st = false -> run rt p st evs = Some (st', out) ->
    isEditing st' = false.
Proof.
  intros Ha.
  induction evs as [|ev rest IH]; intros st st' out Hst H; simpl in H.
  - now injection H as <- <-.
  - destruct (step rt p st ev) as [[st1 out1]|] eqn:E; [|discriminate].
    destruct (run rt p st1 rest) as [[st2 out2]|] eqn:R; [|discriminate].
    injection H as <- <-.
    exact (IH _ _ _ (@step_visitor st st1 ev out1 Ha Hst E) R).
Qed.

End WithRuntime.

Lemma well_formed_Success (rt : Runtime) (v input : FormData) :
  speciesSchema rt v = Success input -> well_formed input.
Proof.
  intros H.
  apply speciesSchema_Success_inv in H as (E1 & E2 & E3 & E4 & E5 & E6).
  unfold well_formed. rewrite E2, E6.
  assert (S1 : scientific_name input = trim (scientific_name v)).
  { unfold scientific_name_schema in E1.
    destruct (1 <=? _)%nat; [|discriminate].
    injection E1 as <-. apply trim_idempotent. }
  assert (L : scientific_name input <> []).
  { unfold scientific_name_schema in E1.
    destruct (1 <=? List.length (trim (scientific_name v)))%nat eqn:L;
      [|discriminate].
    rewrite S1. intros N. rewrite N in L. discriminate. }
  split; [exact L|]. split; [rewrite S1; apply trim_idempotent|].
  split; [apply normalized_null_if_blank|].
  split; [apply kingdoms_parse_Valid in E3 as [-> K]; now apply in_enum_In|].
  split.
  - destruct (total_population v) as [x|]; simpl in E4.
    + destruct (number_schema x) as [y|] eqn:N; [|discriminate].
      injection E4 as <-. now apply number_schema_Valid in N as [-> N].
    + now injection E4 as <-.
  - split; [|apply normalized_null_if_blank].
    unfold image_schema in E5. destruct (image v) as [s|].
    + destruct (Url.parses rt s); [|discriminate].
      injection E5 as <-. exact (normalized_null_if_blank (Some s)).
    + now injection E5 as <-.
Qed.

End PayloadFacts.

Module PayloadProperties.

Import JsString JsStringFacts Zod ZodFacts SchemaFacts Dialog DialogFacts.
Import Payload PayloadFacts.

(** X7: whatever the schema returns as data is well formed: the
    scientific name is trimmed and not empty, the nullable texts are
    [null] or trimmed and not empty, the kingdom is one of the enum, and
    the population is [null] or a whole number of at least 1. *)
Theorem schema_output_well_formed (rt : Runtime) (v input : FormData) :
  speciesSchema rt v = Success input -> well_formed input.
Proof. apply well_formed_Success. Qed.

(** At the lion with a padded name and a blank description. *)
Lemma schema_output_well_formed_witness :
  well_formed
    (mkFormData (lit "Panthera leo") None (lit "Animalia")
       (Some 20000%float) None None).
Proof.
  exact (@schema_output_well_formed Sample.rt
           (mkFormData (lit " Panthera leo ") None (lit "Animalia")
              (Some 20000%float) None (Some (lit "  ")))
           _ eq_refl).
Defined.

(** X8: on every run, from any state, each update that is sent is for
    the record's own id and carries a well-formed payload, and each
    delete that is sent is for the record's own id, by its author, after a
    click on Delete Species that was confirmed. *)
Theorem sent_requests_are_sound (rt : Runtime) (p : Props)
  (evs : list Event) (st st' : State) (out : list Effect) :
  run rt p st evs = Some (st', out) ->
  (forall id input,
      In (SupabaseUpdate id input) out ->
      id = Species.id (species p) /\ well_formed input)
  /\ (forall id,
         In (SupabaseDelete id) out ->
         id = Species.id (species p) /\ is_author p = true
         /\ In (Click DeleteSpecies true) evs).
Proof.
  intros H. destruct (run_requests rt p evs _ H) as [U D].
  split; [|exact D].
  intros id input Hin. destruct (U _ _ Hin) as [-> [v Hv]].
  split; [reflexivity|]. exact (well_formed_Success rt v Hv).
Qed.

(** At the two saves of the lion: both updates are for record 7. *)
Lemma sent_requests_are_sound_witness :
  7%Z = Species.id Sample.lion /\ well_formed (Scenario.saved 30000).
Proof.
  apply (proj1
           (@sent_requests_are_sound Sample.rt Sample.props
              Scenario.two_saves (initial Sample.props)
              Scenario.two_in_flight
              [SupabaseUpdate 7 (Scenario.saved 25000);
               SupabaseUpdate 7 (Scenario.saved 30000)]
              eq_refl)).
  right. now left.
Defined.

(** X9: with two updates in flight, the form ends on the payload whose
    response arrives last, whichever was sent first: nothing orders the
    responses. *)
Theorem last_response_wins (rt : Runtime) (p : Props) (st : State)
  (a b : FormData) :
  pending st = [AwaitUpdate a; AwaitUpdate b] ->
  (exists out,
      run rt p st [Response 1 None; Response 0 None]
      = Some (mkState false (mkForm a a []) [], out))
  /\ (exists out,
         run rt p st [Response 0 None; Response 0 None]
         = Some (mkState false (mkForm b b []) [], out)).
Proof.
  intros H. destruct st as [e f pd]. simpl in H. subst pd.
  split; eexists; reflexivity.
Qed.

(** At the two saves of the lion: the response to the second save comes
    first, and the form ends on the first save's 25000. *)
Lemma last_response_wins_witness :
  pending Scenario.two_in_flight
  = [AwaitUpdate (Scenario.saved 25000); AwaitUpdate (Scenario.saved 30000)]
  /\ exists out,
      run Sample.rt Sample.props Scenario.two_in_flight
        [Response 1 None; Response 0 None]
      = Some
          (mkState false
             (mkForm (Scenario.saved 25000) (Scenario.saved 25000) []) [],
           out).
Proof.
  split; [reflexivity|].
  exact (proj1
           (@last_response_wins Sample.rt Sample.props
              Scenario.two_in_flight (Scenario.saved 25000)
              (Scenario.saved 30000) eq_refl)).
Defined.

(** X10: when the row's kingdom is one of the enum, the kingdom of the
    form is one of the enum in every state a run reaches, so the kingdom
    field never fails validation: the select only stores parsed values,
    and resets only restore the row or a parsed payload. *)
Theorem kingdom_stays_in_enum (rt : Runtime) (p : Props)
  (evs : list Event) (st : State) (out : list Effect) :
  in_enum (Species.kingdom (species p)) ->
  run rt p (initial p) evs = Some (st, out) ->
  In (kingdom (values (form st))) kingdoms
  /\ field_fails rt Name.kingdom (values (form st)) = false.
Proof.
  intros Hrow H.
  assert (I0 : kingdom_in_enum (initial p)).
  { split; [exact Hrow | constructor]. }
  destruct (run_kingdom_in_enum rt p evs Hrow I0 H) as [K _].
  split; [now apply in_enum_In|].
  simpl. unfold kingdoms_parse. unfold in_enum in K. now rewrite K.
Qed.

(** At the lion, after the visitor picks Fungi in the select. *)
Lemma kingdom_stays_in_enum_witness :
  exists st,
    run Sample.rt Sample.visitor (initial Sample.visitor)
      [ChangeKingdom (lit "Fungi")] = Some (st, [])
    /\ In (kingdom (values (form st))) kingdoms.
Proof.
  eexists. split; [reflexivity|].
  exact (proj1
           (@kingdom_stays_in_enum Sample.rt Sample.visitor
              [ChangeKingdom (lit "Fungi")] _ [] eq_refl eq_refl)).
Defined.

(** X11: for a viewer who is not the author, on every run from the
    initial state [isEditing] stays false, no delete is ever sent, and no
    text or number input accepts a change. *)
Theorem visitor_never_edits (rt : Runtime) (p : Props) (evs : list Event)
  (st : State) (out : list Effect) :
  is_author p = false ->
  run rt p (initial p) evs = Some (st, out) ->
  isEditing st = false
  /\ (forall id, ~ In (SupabaseDelete id) out)
  /\ (forall f text, step rt p st (ChangeText f text) = None)
  /\ (forall text, step rt p st (ChangePopulation text) = None).
Proof.
  intros Ha H.
  pose proof (run_visitor rt p evs Ha (initial p) eq_refl H) as He.
  split; [exact He|]. split; [|split].
  - intros id Hin.
    destruct (proj2 (run_requests rt p evs _ H) id Hin) as (_ & Ha' & _).
    congruence.
  - intros f text. unfold step, control. rewrite He. now destruct f.
  - intros text. unfold step, control. now rewrite He.
Qed.

(** At a visitor of the lion who picks a kingdom and opens the details. *)
Lemma visitor_never_edits_witness :
  exists st out,
    run Sample.rt Sample.visitor (initial Sample.visitor)
      [ChangeKingdom (lit "Fungi"); Click ViewFullDetails false]
    = Some (st, out)
    /\ isEditing st = false
    /\ step Sample.rt Sample.visitor st
         (ChangeText Name.description (lit "mine")) = None.
Proof.
  eexists. eexists. split; [reflexivity|].
  pose proof (@visitor_never_edits Sample.rt Sample.visitor
                [ChangeKingdom (lit "Fungi"); Click ViewFullDetails false]
                _ _ eq_refl eq_refl) as (He & _ & Ht & _).
  split; [exact He | apply Ht].
Defined.

End PayloadProperties.

(** ** Which image texts pass *)

Module UrlShapeFacts.

Import JsString JsStringFacts Url UrlFacts UrlShape.
Local Open Scope N_scope.

Lemma scheme_state_colon (s buffer : jsstring) (r : jsstring * jsstring) :
  scheme_state buffer s = Some r -> In 0x3A s.
Proof.
  revert buffer. induction s as [|c t IH]; intros buffer; simpl;
    [discriminate|].
  destruct (is_ascii_alpha c || is_ascii_digit c || (c =? 0x2B)
            || (c =? 0x2D) || (c =? 0x2E)).
  - intros H. right. exact (IH _ H).
  - destruct (c =? 0x3A) eqn:E; [|discriminate].
    intros _. left. now apply N.eqb_eq.
Qed.

Lemma parses_has_colon (rt : Runtime) (s : jsstring) :
  parses rt s = true -> has_colon s = true.
Proof.
  unfold parses, has_colon. intros H.
  destruct (scheme_start_state (preprocess s)) as [r|] eqn:E;
    [|discriminate].
  unfold scheme_start_state in E.
  destruct (preprocess s) as [|c t] eqn:P; [discriminate|].
  destruct (is_ascii_alpha c); [|discriminate].
  apply scheme_state_colon in E.
  apply existsb_exists. exists 0x3A. split; [|reflexivity].
  apply In_preprocess. rewrite P. now right.
Qed.

Lemma scheme_code_point_visible (c : N) :
  scheme_code_point c = true -> (0x20 <? c) = true.
Proof.
  unfold scheme_code_point, is_ascii_alpha, is_ascii_upper, is_ascii_digit.
  intros H. apply N.ltb_lt. bool_hyps; lia.
Qed.

Lemma filter_all {A} (f : A -> bool) (l : list A) :
  forallb f l = true -> filter f l = l.
Proof.
  induction l as [|a r IH]; simpl; [reflexivity|].
  intros H. apply andb_true_iff in H as [Ha Hr].
  now rewrite Ha, IH.
Qed.

Lemma strip_leading_visible (s : jsstring) :
  forallb (N.ltb 0x20) s = true -> strip_leading s = s.
Proof.
  destruct s as [|c r]; simpl; [reflexivity|].
  intros H. apply andb_true_iff in H as [Hc _].
  unfold is_c0_control_or_space.
  apply N.ltb_lt in Hc. now rewrite (proj2 (N.leb_gt c 0x20) Hc).
Qed.

(** Text without spaces and control characters is parsed as it is. *)
Lemma preprocess_visible (s : jsstring) :
  forallb (N.ltb 0x20) s = true -> preprocess s = s.
Proof.
  intros H. unfold preprocess.
  rewrite (strip_leading_visible s H).
  rewrite strip_leading_visible, rev_involutive.
  - apply filter_all. rewrite forallb_forall in *. intros c Hc.
    specialize (H c Hc). apply N.ltb_lt in H.
    unfold is_tab_or_newline.
    destruct (c =? 0x9) eqn:E1; [apply N.eqb_eq in E1; lia|].
    destruct (c =? 0xA) eqn:E2; [apply N.eqb_eq in E2; lia|].
    destruct (c =? 0xD) eqn:E3; [apply N.eqb_eq in E3; lia|].
    reflexivity.
  - rewrite forallb_forall in *. intros c Hc. apply H.
    now apply in_rev.
Qed.

Lemma scheme_state_word (w buffer t : jsstring) :
  forallb scheme_code_point w = true ->
  scheme_state buffer (w ++ 0x3A :: t)
  = Some (buffer ++ map to_lower w, t).
Proof.
  revert buffer. induction w as [|c r IH]; intros buffer H.
  - simpl. now rewrite app_nil_r.
  - simpl in H. apply andb_true_iff in H as [Hc Hr].
    simpl. unfold scheme_code_point in Hc. rewrite Hc.
    rewrite (IH _ Hr), <- app_assoc. reflexivity.
Qed.

(** What follows the scheme does not enter the authority state. *)
Lemma plain_no_authority (A : Type) (t : jsstring) (x : jsstring -> A)
  (y : A) :
  plain t = true ->
  match t with
  | 0x2F :: 0x2F :: r => x r
  | _ => y
  end = y.
Proof.
  destruct t as [|c r]; [reflexivity|].
  unfold plain. simpl. intros H.
  apply andb_true_iff in H as [H _]. apply andb_true_iff in H as [_ H].
  apply negb_true_iff in H.
  destruct c as [|q]; [reflexivity|].
  do 6 (destruct q as [q|q|]; try reflexivity).
  discriminate.
Qed.

End UrlShapeFacts.

Module UrlShapeProperties.

Import JsString JsStringFacts Zod Url UrlFacts UrlShape UrlShapeFacts.
Local Open Scope N_scope.

(** X12: an image text without a colon fails validation: the URL check
    needs a scheme, so a path or a file name is never accepted. *)
Theorem image_without_colon_rejected (rt : Runtime) (s : jsstring) :
  has_colon s = false ->
  image_schema rt (Some s) = Invalid [invalid_string].
Proof.
  intros H. unfold image_schema.
  destruct (parses rt s) eqn:P; [|reflexivity].
  apply parses_has_colon in P. congruence.
Qed.

(** At a path on the same site. *)
Lemma image_without_colon_rejected_witness :
  image_schema Sample.rt (Some (lit "/images/lion.png"))
  = Invalid [invalid_string].
Proof.
  exact (@image_without_colon_rejected Sample.rt (lit "/images/lion.png")
           eq_refl).
Defined.

(** X13: the URL check accepts any scheme: an image text made of a
    scheme that is not special, a colon, and text without slash, space or
    control character passes validation and is stored trimmed, whatever
    the scheme ([data:], [javascript:], ...) and whatever the runtime. *)
Theorem image_with_any_scheme_accepted (rt : Runtime) (w t : jsstring) :
  is_scheme w = true -> is_special (map to_lower w) = false ->
  plain t = true ->
  image_schema rt (Some (w ++ 0x3A :: t))
  = Valid (Some (trim (w ++ 0x3A :: t))).
Proof.
  intros Hw Hs Ht.
  destruct w as [|a r]; [discriminate|]. simpl in Hw.
  apply andb_true_iff in Hw as [Ha Hr].
  assert (V : forallb (N.ltb 0x20) ((a :: r) ++ 0x3A :: t) = true).
  { rewrite forallb_app. simpl. apply andb_true_iff. split.
    - apply andb_true_iff. split.
      + apply scheme_code_point_visible. unfold scheme_code_point.
        now rewrite Ha.
      + rewrite forallb_forall in *. intros c Hc.
        apply scheme_code_point_visible. now apply Hr.
    - unfold plain in Ht. rewrite forallb_forall in *. intros c Hc.
      specialize (Ht c Hc). now apply andb_true_iff in Ht as [Ht _]. }
  assert (P : parses rt ((a :: r) ++ 0x3A :: t) = true).
  { unfold parses. rewrite (preprocess_visible _ V).
    simpl. rewrite Ha. rewrite (@scheme_state_word r _ t Hr).
    simpl in Hs. simpl. rewrite Hs.
    now apply plain_no_authority. }
  unfold image_schema. rewrite P. f_equal.
  rewrite ZodFacts.null_if_blank_spec.
  now rewrite (parses_not_blank rt _ P).
Qed.

(** At a script URL. *)
Lemma image_with_any_scheme_accepted_witness :
  image_schema Sample.rt (Some (lit "javascript:alert(1)"))
  = Valid (Some (lit "javascript:alert(1)")).
Proof.
  exact (@image_with_any_scheme_accepted Sample.rt (lit "javascript")
           (lit "alert(1)") eq_refl eq_refl eq_refl).
Defined.

End UrlShapeProperties.

(** ** The author's display name *)

Module AuthorNameFacts.

Import JsString JsStringFacts AuthorName.

Lemma run_stuck (author : jsstring) (name : option jsstring)
  (os : list Outcome) :
  os <> [] -> run author (mkState name 0) os = None.
Proof. destruct os as [|o rest]; [congruence | reflexivity]. Qed.

Lemma same_falsy_truthy (a b : option jsstring) :
  truthy a = false -> truthy b = true -> same a b = false.
Proof.
  destruct a as [[|x s]|], b as [[|y t]|]; simpl; try discriminate;
    reflexivity.
Qed.

(** One fetch at most is in flight, and none once the name is truthy. *)
Lemma response_in_flight (author : jsstring) (o : Outcome)
  (st st' : State) (out : list Effect) :
  (inFlight st <= 1)%nat ->
  (truthy (authorDisplayName st) = true -> inFlight st = 0%nat) ->
  response author o st = Some (st', out) ->
  (inFlight st' <= 1)%nat
  /\ (truthy (authorDisplayName st') = true -> inFlight st' = 0%nat).
Proof.
  intros L T H. unfold response in H.
  destruct (inFlight st) as [|n] eqn:E; [discriminate|].
  assert (n = 0)%nat as -> by lia.
  destruct o as [name|text|].
  - destruct (same (authorDisplayName st) name).
    + injection H as <- <-. simpl. split; [lia | auto].
    + injection H as H. unfold effect in H. simpl in H.
      destruct (truthy name) eqn:N; injection H as <- <-; simpl.
      * split; [lia | auto].
      * split; [lia | congruence].
  - injection H as <- <-. simpl. split; [lia | auto].
  - injection H as <- <-. simpl. split; [lia | auto].
Qed.

End AuthorNameFacts.

Module AuthorNameProperties.

Import JsString JsStringFacts AuthorName AuthorNameFacts.

(** X14: when the row comes with a display name that is not empty, the
    effect fetches nothing, no response can ever arrive, and the header
    shows the author line. *)
Theorem known_author_name_not_fetched (author name : jsstring)
  (os : list Outcome) :
  truthy (Some name) = true ->
  mount author (Some name) = (mkState (Some name) 0, [])
  /\ (os <> [] -> run author (mkState (Some name) 0) os = None)
  /\ author_line (mkState (Some name) 0)
     = Some (lit "Species Author: " ++ name).
Proof.
  intros T. unfold mount, effect, author_line. simpl authorDisplayName.
  rewrite T. repeat split. apply run_stuck.
Qed.

(** At a row that names its author. *)
Lemma known_author_name_not_fetched_witness :
  mount (lit "u1") (Some (lit "Ada")) = (mkState (Some (lit "Ada")) 0, []).
Proof.
  exact (proj1
           (@known_author_name_not_fetched (lit "u1") (lit "Ada") []
              eq_refl)).
Defined.

(** X15: when the row has no display name (or an empty one), mounting
    fetches it once.  An error is toasted and the name stays unset; a name
    that is not empty is stored and shown.  Either way nothing is in
    flight afterwards and no further response can arrive: a failed fetch
    is not tried again. *)
Theorem author_fetch_outcomes (author : jsstring)
  (initial_name : option jsstring) (os : list Outcome) :
  truthy initial_name = false ->
  mount author initial_name
  = (mkState initial_name 1, [SelectProfile author])
  /\ (forall text,
         run author (mkState initial_name 1) [Error text]
         = Some
             (mkState initial_name 0,
              [Toast "Error fetching author's display name." text
                 Dialog.destructive])
         /\ author_line (mkState initial_name 0) = None
         /\ (os <> [] -> run author (mkState initial_name 0) os = None))
  /\ (forall name,
         truthy (Some name) = true ->
         run author (mkState initial_name 1) [Data (Some name)]
         = Some (mkState (Some name) 0, [])
         /\ author_line (mkState (Some name) 0)
            = Some (lit "Species Author: " ++ name)
         /\ (os <> [] -> run author (mkState (Some name) 0) os = None)).
Proof.
  intros F. split; [|split].
  - unfold mount, effect. simpl authorDisplayName. now rewrite F.
  - intros text. repeat split.
    + unfold author_line. simpl authorDisplayName. now rewrite F.
    + apply run_stuck.
  - intros name T. split; [|split].
    + unfold run, response. simpl inFlight. simpl authorDisplayName.
      rewrite (same_falsy_truthy _ _ F T).
      unfold effect. simpl authorDisplayName. now rewrite T.
    + unfold author_line. simpl authorDisplayName. now rewrite T.
    + apply run_stuck.
Qed.

(** At a row without a display name, for an error and for a name. *)
Lemma author_fetch_outcomes_witness :
  run (lit "u1") (mkState None 1) [Error (lit "timeout")]
  = Some
      (mkState None 0,
       [Toast "Error fetching author's display name." (lit "timeout")
          Dialog.destructive])
  /\ run (lit "u1") (mkState None 1) [Data (Some (lit "Ada"))]
     = Some (mkState (Some (lit "Ada")) 0, []).
Proof.
  split.
  - exact (proj1 (proj1 (proj2
             (@author_fetch_outcomes (lit "u1") None [] eq_refl))
             (lit "timeout"))).
  - exact (proj1 (proj2 (proj2
             (@author_fetch_outcomes (lit "u1") None [] eq_refl))
             (lit "Ada") eq_refl)).
Defined.

(** X16: on every run after mounting, at most one fetch of the display
    name is in flight, and none is once the name is not empty: a name that
    is set and not empty is never fetched again and never replaced. *)
Theorem one_author_fetch_in_flight (author : jsstring)
  (initial_name : option jsstring) (os : list Outcome) (st : State)
  (out : list Effect) :
  run author (fst (mount author initial_name)) os = Some (st, out) ->
  (inFlight st <= 1)%nat
  /\ (truthy (authorDisplayName st) = true ->
      inFlight st = 0%nat /\ forall o, response author o st = None).
Proof.
  assert (G : forall os st0 st out,
             (inFlight st0 <= 1)%nat ->
             (truthy (authorDisplayName st0) = true ->
              inFlight st0 = 0%nat) ->
             run author st0 os = Some (st, out) ->
             (inFlight st <= 1)%nat
             /\ (truthy (authorDisplayName st) = true ->
                 inFlight st = 0%nat)).
  { clear. induction os as [|o rest IH]; intros st0 st out L T H;
      simpl in H.
    - injection H as <- <-. now split.
    - destruct (response author o st0) as [[st1 out1]|] eqn:E;
        [|discriminate].
      destruct (run author st1 rest) as [[st2 out2]|] eqn:R;
        [|discriminate].
      injection H as <- <-.
      destruct (response_in_flight author o st0 L T E) as (L1 & T1).
      exact (IH _ _ _ L1 T1 R). }
  intros H.
  destruct (G os (fst (mount author initial_name)) st out) as [L T].
  - unfold mount, effect. simpl authorDisplayName.
    destruct (truthy initial_name); simpl; lia.
  - unfold mount, effect. simpl authorDisplayName.
    destruct (truthy initial_name) eqn:F; simpl; [reflexivity|congruence].
  - exact H.
  - split; [exact L|]. intros Ht. split; [now apply T|].
    intros o. unfold response. now rewrite (T Ht).
Qed.

(** At a row without a display name whose fetch answers with a name. *)
Lemma one_author_fetch_in_flight_witness :
  inFlight (mkState (Some (lit "Ada")) 0) = 0%nat
  /\ forall o, response (lit "u1") o (mkState (Some (lit "Ada")) 0) = None.
Proof.
  exact (proj2
           (@one_author_fetch_in_flight (lit "u1") None
              [Data (Some (lit "Ada"))] (mkState (Some (lit "Ada")) 0) []
              eq_refl)
           eq_refl).
Defined.

End AuthorNameProperties.

(** ** The detail page *)

Module DetailPageProperties.

Import JsString DetailPage.

(** X17: an id taken from [router.query] is a string, a list of strings
    or undefined, never a number, so [fetchSpecies] returns at once: from
    the initial state no request is sent for any such ids, the state does
    not change, no response can arrive, and the page shows Loading. *)
Theorem query_id_never_loads (qs : list QueryValue) :
  run initial (map (fun q => IdIs (query_value q)) qs) = Some (initial, [])
  /\ (forall n o, step initial (Response n o) = None)
  /\ render initial = Element "div" [Text (lit "Loading...")].
Proof.
  split; [|split].
  - induction qs as [|q rest IH]; [reflexivity|].
    simpl map. unfold run. fold run.
    assert (E : step initial (IdIs (query_value q)) = Some (initial, []))
      by now destruct q.
    rewrite E, IH. reflexivity.
  - now intros [|n] o.
  - reflexivity.
Qed.


End DetailPageProperties.
